(** * Sierra ECG reader: a shallow embedding of [sierraecg/lib.py]

    The development follows the Python module function by function:
    the document accessors ([get_node], [get_attr], [get_text]), the
    version gate ([assert_version]), label resolution
    ([get_or_create_labels], [get_lead_name]), payload decoding
    ([get_waveform_data], [split_leads]), the augmented-lead corrections
    of [read_file], and the representative beats ([assert_reps]).

    Modelling conventions
    - a raised exception is the [Err] branch of [result];
    - a [numpy] array of [int16] is a [list Z] of values in
      [-32768, 32767]; arithmetic on its elements wraps ([wrap16]);
    - a [bytes] object is a [list byte];
    - a minidom tree is the inductive type [node];
    - Python dictionaries are [gmap]s;
    - the services the module imports ([b64decode], [float], the XLI
      codec) are the fields of the class [Host]. *)

From Stdlib Require Import ZArith List String Ascii Lia Bool.
From Stdlib Require Import SpecFloat DecimalString.
From Stdlib Require Strings.Byte.
From stdpp Require Import base option list strings gmap.

Open Scope Z_scope.

#[local] Set Warnings "-register-all".

(** ** Exceptions and the error monad *)

Inductive error : Type :=
| UnsupportedXmlFileError (msg : string)
| MissingXmlElementError (tag_name : string)
| MissingXmlAttributeError (attr_name : string)
| ValueError            (* int(), float(), np.frombuffer *)
| IndexError            (* list or array subscript out of range *)
| OverflowError         (* int/float conversions *)
| BinasciiError         (* b64decode *)
| CodecError            (* raised inside xli_decode *)
| LoopFuelExhausted.    (* a [while] loop outran its fuel; see [split_loop_fuel] *)

Inductive result (A : Type) : Type :=
| Ok (a : A)
| Err (e : error).
Arguments Ok {A} a.
Arguments Err {A} e.

#[global] Instance result_ret : MRet result := fun _ a => Ok a.
#[global] Instance result_bind : MBind result := fun _ _ k r =>
  match r with
  | Ok a => k a
  | Err e => Err e
  end.

#[global] Instance result_fmap : FMap result := fun _ _ f r =>
  match r with
  | Ok a => Ok (f a)
  | Err e => Err e
  end.

Definition raise_if_none {A} (e : error) (o : option A) : result A :=
  match o with
  | Some a => Ok a
  | None => Err e
  end.

Definition is_ok {A} (r : result A) : bool :=
  match r with
  | Ok _ => true
  | Err _ => false
  end.

(** ** The document tree (xml.dom.minidom) *)

Inductive node : Type :=
| Element (tagName : string) (attributes : list (string * string)) (childNodes : list node)
| TextNode (data : string)
| OtherNode.   (* comment, CDATA section, processing instruction *)

(** A [Document] is a node whose children are the top-level nodes; its own
    name never takes part in a search. *)
Definition Document (top : list node) : node := Element "#document" [] top.

Definition children (n : node) : list node :=
  match n with
  | Element _ _ kids => kids
  | _ => []
  end.

Definition has_tag (name : string) (n : node) : bool :=
  match n with
  | Element t _ _ => String.eqb t name
  | _ => false
  end.

(** [getElementsByTagName]: every descendant element with the given name, in
    document order (the node itself is not a candidate). *)
Fixpoint getElementsByTagName (name : string) (n : node) : list node :=
  match n with
  | Element _ _ kids =>
      flat_map (fun k => (if has_tag name k then [k] else []) ++ getElementsByTagName name k) kids
  | _ => []
  end.

Definition get_opt_node (xdoc : node) (tag_name : string) : option node :=
  match getElementsByTagName tag_name xdoc with
  | xelt :: _ => Some xelt
  | [] => None
  end.

Definition get_node (xdoc : node) (tag_name : string) : result node :=
  match get_opt_node xdoc tag_name with
  | None => Err (MissingXmlElementError tag_name)
  | Some xelt => Ok xelt
  end.

Definition get_nodes (xdoc : node) (tag_name : string) : list node :=
  getElementsByTagName tag_name xdoc.

(** [get_text]: the text children, concatenated. *)
Definition get_text (xdoc : node) : string :=
  String.concat "" (flat_map (fun k => match k with TextNode d => [d] | _ => [] end) (children xdoc)).

Fixpoint attr_lookup (attr_name : string) (attrs : list (string * string)) : option string :=
  match attrs with
  | [] => None
  | (k, v) :: rest => if String.eqb k attr_name then Some v else attr_lookup attr_name rest
  end.

Definition attrs_of (n : node) : list (string * string) :=
  match n with
  | Element _ attrs _ => attrs
  | _ => []
  end.

(** [attr_name in xdoc.attributes] and the text of [xdoc.attributes[attr_name]]. *)
Definition attr (xdoc : node) (attr_name : string) : option string :=
  attr_lookup attr_name (attrs_of xdoc).

(** [get_attr]: the attribute's text, else the default, else
    [MissingXmlAttributeError]. *)
Definition get_attr (xdoc : node) (attr_name : string) (default : option string) : result string :=
  match attr xdoc attr_name with
  | Some v => Ok v
  | None =>
      match default with
      | None => Err (MissingXmlAttributeError attr_name)
      | Some d => Ok d
      end
  end.

(** ** Python built-ins used by the module *)

Module Py.

(** *** [int(str)]: optional blanks, optional sign, decimal digits with
    single underscores between digits. *)

Definition is_space (c : ascii) : bool :=
  let n := N_of_ascii c in
  ((9 <=? n) && (n <=? 13) || (28 <=? n) && (n <=? 32))%N.

Definition digit_of (c : ascii) : option Z :=
  let n := Z.of_N (N_of_ascii c) in
  if (48 <=? n) && (n <=? 57) then Some (n - 48) else None.

Fixpoint lstrip (s : list ascii) : list ascii :=
  match s with
  | c :: r => if is_space c then lstrip r else s
  | [] => []
  end.

Definition strip (s : list ascii) : list ascii :=
  rev (lstrip (rev (lstrip s))).

Inductive digit_state := AtStart | AfterDigit | AfterUnderscore.

Fixpoint digits (st : digit_state) (acc : Z) (s : list ascii) : option Z :=
  match s with
  | [] => match st with AfterDigit => Some acc | _ => None end
  | c :: r =>
      match digit_of c with
      | Some d => digits AfterDigit (10 * acc + d) r
      | None =>
          if Ascii.eqb c "_"
          then match st with AfterDigit => digits AfterUnderscore acc r | _ => None end
          else None
      end
  end.

Definition int_opt (s : string) : option Z :=
  match strip (list_ascii_of_string s) with
  | "-"%char :: r => Z.opp <$> digits AtStart 0 r
  | "+"%char :: r => digits AtStart 0 r
  | r => digits AtStart 0 r
  end.

Definition int (s : string) : result Z := raise_if_none ValueError (int_opt s).

(** *** [str(int)], as produced inside an f-string. *)
Definition str (z : Z) : string := NilZero.string_of_int (Z.to_int z).

(** *** [s.split(" ")]: cut at every single space, keeping empty pieces. *)
Fixpoint split_aux (cur : string) (s : string) : list string :=
  match s with
  | EmptyString => [String.rev cur]
  | String c r =>
      if Ascii.eqb c " " then String.rev cur :: split_aux "" r
      else split_aux (String c cur) r
  end.

Definition split_space (s : string) : list string := split_aux "" s.

(** *** Slices [l[i:j]] and [l[:j]] with Python's index normalisation. *)
Definition clamp_index (len i : Z) : Z :=
  if i <? 0 then Z.max 0 (i + len) else Z.min i len.

Definition slice {A} (l : list A) (i j : Z) : list A :=
  let len := Z.of_nat (length l) in
  let i' := clamp_index len i in
  let j' := clamp_index len j in
  take (Z.to_nat (j' - i')) (drop (Z.to_nat i') l).

Definition slice_to {A} (l : list A) (j : Z) : list A := slice l 0 j.

(** *** [range(n)] *)
Definition range (n : Z) : list Z := Z.of_nat <$> seq 0 (Z.to_nat n).

End Py.

(** ** Version gate *)

Definition supported_types : list string := ["SierraECG"; "PhilipsECG"].
Definition supported_versions : list string := ["1.03"; "1.04"; "1.04.01"; "1.04.02"].

Definition str_in (s : string) (l : list string) : bool := existsb (String.eqb s) l.

Definition assert_version (elt : node) : result (string * string) :=
  doc_info ← get_node elt "documentinfo";
  n_type ← get_node doc_info "documenttype";
  let doc_type := get_text n_type in
  n_ver ← get_node doc_info "documentversion";
  let doc_ver := get_text n_ver in
  if negb (str_in doc_type supported_types) || negb (str_in doc_ver supported_versions)
  then Err (UnsupportedXmlFileError ("Files of type " +:+ doc_type +:+ " " +:+ doc_ver +:+ " are unsupported"))
  else Ok (doc_type, doc_ver).

(** ** Lead labels *)

Definition get_lead_name (leads_used : string) (index : Z) : string :=
  if str_in leads_used ["STD-12"; "10-WIRE"] then
    if index =? 1 then "I"
    else if index =? 2 then "II"
    else if index =? 3 then "III"
    else if index =? 4 then "aVR"
    else if index =? 5 then "aVL"
    else if index =? 6 then "aVF"
    else if (6 <? index) && (index <=? 12) then "V" +:+ Py.str (index - 6)
    else "Channel " +:+ Py.str index
  else "Channel " +:+ Py.str index.

Definition get_or_create_labels (signal_details parsed_waveforms : node) : result (list string) :=
  lead_labels ← get_attr parsed_waveforms "leadlabels" (Some "");
  if negb (String.eqb lead_labels "") then
    a ← get_attr parsed_waveforms "numberofleads" None;
    lead_count ← Py.int a;
    Ok (Py.slice_to (Py.split_space lead_labels) lead_count)
  else
    n_chan ← get_node signal_details "numberchannelsallocated";
    good_channels ← Py.int (get_text n_chan);
    n_acq ← get_node signal_details "acquisitiontype";
    let leads_used := get_text n_acq in
    Ok ((fun x => get_lead_name leads_used (x + 1)) <$> Py.range good_channels).

(** ** Floating point: [int(duration * (sampling_freq / 1000))]

    Python floats are IEEE 754 binary64 values; they are computed here
    with the specification-level operations of [SpecFloat]. *)

Module Float.

Definition prec : Z := 53.
Definition emax : Z := 1024.

Definition finite (f : spec_float) : result spec_float :=
  match f with
  | S754_infinity _ => Err OverflowError
  | _ => Ok f
  end.

(** int -> float conversion: nearest-even, [OverflowError] beyond the range. *)
Definition of_int (n : Z) : result spec_float :=
  finite (binary_normalize prec emax n 0 false).

(** [a / b] on two ints, [b > 0]: the correctly rounded quotient. *)
Definition truediv (a : Z) (b : positive) : result spec_float :=
  match a with
  | Z0 => Ok (S754_zero false)
  | Zpos m => finite (SFdiv prec emax (S754_finite false m 0) (S754_finite false b 0))
  | Zneg m => finite (SFdiv prec emax (S754_finite true m 0) (S754_finite false b 0))
  end.

Definition mul (x y : spec_float) : spec_float := SFmul prec emax x y.

(** [int(x)]: truncation toward zero. *)
Definition to_int (x : spec_float) : result Z :=
  match x with
  | S754_zero _ => Ok 0
  | S754_finite s m e =>
      let mag := if 0 <=? e then Z.pos m * 2 ^ e else Z.pos m `div` 2 ^ (- e) in
      Ok (if s then - mag else mag)
  | S754_infinity _ => Err OverflowError
  | S754_nan => Err ValueError
  end.

End Float.

Definition compute_sample_count (duration sampling_freq : Z) : result Z :=
  rate ← Float.truediv sampling_freq 1000;
  d ← Float.of_int duration;
  Float.to_int (Float.mul d rate).

(** ** Arrays of 16-bit samples *)

Definition wrap16 (z : Z) : Z := (z + 32768) `mod` 65536 - 32768.

Definition int16 (z : Z) : Prop := -32768 <= z <= 32767.

(** An [ndarray] with dtype [int16]. An array built over a [bytes] object
    refuses item assignment; slicing keeps that property. *)
Record ndarray : Type := mk_ndarray {
  writeable : bool;
  items : list Z
}.

Definition array_len (a : ndarray) : nat := length (items a).

Definition getitem (a : ndarray) (i : nat) : result Z :=
  raise_if_none IndexError (items a !! i).

Definition setitem (a : ndarray) (i : nat) (v : Z) : result ndarray :=
  if negb (writeable a) then Err ValueError
  else if decide (i < length (items a))%nat
       then Ok (mk_ndarray true (<[i := wrap16 v]> (items a)))
       else Err IndexError.

Definition array_slice (a : ndarray) (i j : Z) : ndarray :=
  mk_ndarray (writeable a) (Py.slice (items a) i j).

Definition int16_le (lo hi : Byte.byte) : Z :=
  wrap16 (Z.of_N (Byte.to_N lo) + 256 * Z.of_N (Byte.to_N hi)).

Fixpoint int16_values (b : list Byte.byte) : option (list Z) :=
  match b with
  | [] => Some []
  | lo :: hi :: rest => cons (int16_le lo hi) <$> int16_values rest
  | [_] => None
  end.

(** [np.frombuffer(data, dtype=np.int16)] on a [bytes] object (little-endian
    host): a read-only array; [ValueError] when the size is odd. *)
Definition frombuffer (data : list Byte.byte) : result ndarray :=
  raise_if_none ValueError (mk_ndarray false <$> int16_values data).

(** ** Imported services

    [b64decode] (standard library), [float] (built-in) and [xli_decode]
    (the module [sierraecg.xli]) are used as black boxes; [None] stands for
    an exception raised inside them. *)
Class Host : Type := {
  pyfloat : Type;
  float_of_str : string → option pyfloat;
  b64decode : string → option (list Byte.byte);
  xli_decode : list Byte.byte → list string → option (list ndarray)
}.

(** ** Entities *)

Record EcgLead : Type := mk_EcgLead {
  lead_label : string;
  lead_sampling_freq : Z;
  lead_duration : Z;
  lead_samples : ndarray
}.

Record EcgRepbeat `{Host} : Type := mk_EcgRepbeat {
  rb_label : string;
  rb_sampling_freq : Z;
  rb_duration : Z;
  rb_resolution : pyfloat;
  rb_method : string;
  rb_samples : ndarray
}.

Record SierraEcgFile `{Host} : Type := mk_SierraEcgFile {
  doc_type : string;
  doc_ver : string;
  leads : list EcgLead;
  repbeats : gmap string EcgRepbeat
}.

Section Reader.
Context `{host : Host}.

Definition read_base64_encoding (text : string) : result (list Byte.byte) :=
  raise_if_none BinasciiError (b64decode text).

(** ** Payload decoding *)

Definition infer_compression (parsed_waveforms : node) : result string :=
  fallback ← get_attr parsed_waveforms "compression" (Some "Uncompressed");
  get_attr parsed_waveforms "compressmethod" (Some fallback).

(** The [while] loop of [split_leads]; [None] when the fuel runs out. *)
Fixpoint split_loop (fuel : nat) (all_samples : ndarray) (bound samples offset : Z)
    (acc : list ndarray) : option (list ndarray) :=
  if offset <? bound then
    match fuel with
    | O => None
    | S fuel' =>
        let lead := array_slice all_samples offset (offset + samples) in
        split_loop fuel' all_samples bound samples (offset + samples) (acc ++ [lead])
    end
  else Some acc.

Definition split_leads (waveform_data : list Byte.byte) (lead_count : nat) (samples : Z)
    : result (list ndarray) :=
  all_samples ← frombuffer waveform_data;
  raise_if_none LoopFuelExhausted
    (split_loop lead_count all_samples (Z.of_nat lead_count * samples) samples 0 []).

Definition get_waveform_data (signal_details parsed_waveforms : node) (labels : list string)
    : result (list ndarray) :=
  n_rate ← get_node signal_details "samplingrate";
  sampling_freq ← Py.int (get_text n_rate);
  a_dur ← get_attr parsed_waveforms "durationperchannel" None;
  duration ← Py.int a_dur;
  sample_count ← compute_sample_count duration sampling_freq;
  encoding ← get_attr parsed_waveforms "dataencoding" None;
  waveform_data ←
    (if String.eqb encoding "Base64"
     then read_base64_encoding (get_text parsed_waveforms)
     else Err (UnsupportedXmlFileError ("Waveform data encoding unsupported: " +:+ encoding)));
  compression_method ← infer_compression parsed_waveforms;
  if negb (String.eqb compression_method "Uncompressed") then
    if String.eqb compression_method "XLI"
    then raise_if_none CodecError (xli_decode waveform_data labels)
    else Err (UnsupportedXmlFileError
                ("Waveform data compression algorithm unsupported: " +:+ compression_method))
  else split_leads waveform_data (length labels) sample_count.

(** The [for index, label in enumerate(labels)] loop of [assert_leads]. *)
Fixpoint build_leads (sampling_freq duration : Z) (waveform_data : list ndarray)
    (index : nat) (labels : list string) : result (list EcgLead) :=
  match labels with
  | [] => Ok []
  | label :: rest =>
      samples ← raise_if_none IndexError (waveform_data !! index);
      tail ← build_leads sampling_freq duration waveform_data (S index) rest;
      Ok (mk_EcgLead label sampling_freq duration samples :: tail)
  end.

Definition assert_leads (elt : node) : result (list EcgLead * list string) :=
  acq ← get_node elt "dataacquisition";
  signal_details ← get_node acq "signalcharacteristics";
  parsed_waveforms ← get_node elt "parsedwaveforms";
  n_rate ← get_node signal_details "samplingrate";
  sampling_freq ← Py.int (get_text n_rate);
  a_dur ← get_attr parsed_waveforms "durationperchannel" None;
  duration ← Py.int a_dur;
  labels ← get_or_create_labels signal_details parsed_waveforms;
  waveform_data ← get_waveform_data signal_details parsed_waveforms labels;
  leads ← build_leads sampling_freq duration waveform_data 0 labels;
  Ok (leads, labels).

(** ** Augmented leads (lines 78-95 of [read_file]) *)

(** [for i in range(n): state = body i state] *)
Fixpoint for_range {S : Type} (body : nat → S → result S) (i count : nat) (s : S) : result S :=
  match count with
  | O => Ok s
  | Datatypes.S count' => s' ← body i s; for_range body (Datatypes.S i) count' s'
  end.

(** [floor(x / 2)]: the quotient is exact in binary64 for a 16-bit [x]. *)
Definition floor_half (x : Z) : Z := x `div` 2.

Definition correct_iii (lead_i lead_ii : ndarray) (i : nat) (lead_iii : ndarray) : result ndarray :=
  b ← getitem lead_ii i;
  a ← getitem lead_i i;
  c ← getitem lead_iii i;
  setitem lead_iii i (wrap16 (wrap16 (b - a) - c)).

Definition correct_avr (lead_i lead_ii : ndarray) (i : nat) (lead_avr : ndarray) : result ndarray :=
  r ← getitem lead_avr i;
  a ← getitem lead_i i;
  b ← getitem lead_ii i;
  setitem lead_avr i (wrap16 (wrap16 (- r) - floor_half (wrap16 (a + b)))).

Definition correct_avl (lead_i lead_iii : ndarray) (i : nat) (lead_avl : ndarray) : result ndarray :=
  a ← getitem lead_i i;
  c ← getitem lead_iii i;
  l ← getitem lead_avl i;
  setitem lead_avl i (wrap16 (floor_half (wrap16 (a - c)) - l)).

Definition correct_avf (lead_ii lead_iii : ndarray) (i : nat) (lead_avf : ndarray) : result ndarray :=
  b ← getitem lead_ii i;
  c ← getitem lead_iii i;
  f ← getitem lead_avf i;
  setitem lead_avf i (wrap16 (floor_half (wrap16 (b + c)) - f)).

Definition lead_at (leads : list EcgLead) (k : nat) : result EcgLead :=
  raise_if_none IndexError (leads !! k).

Definition with_samples (l : EcgLead) (a : ndarray) : EcgLead :=
  mk_EcgLead (lead_label l) (lead_sampling_freq l) (lead_duration l) a.

(** The six arrays are taken to be six distinct objects, as [split_leads]
    builds them; the updated arrays stay attached to their leads. *)
Definition derive_leads (leads : list EcgLead) : result (list EcgLead) :=
  l0 ← lead_at leads 0;
  l1 ← lead_at leads 1;
  l2 ← lead_at leads 2;
  l3 ← lead_at leads 3;
  l4 ← lead_at leads 4;
  l5 ← lead_at leads 5;
  let lead_i := lead_samples l0 in
  let lead_ii := lead_samples l1 in
  lead_iii ← for_range (correct_iii lead_i lead_ii) 0 (array_len (lead_samples l2)) (lead_samples l2);
  lead_avr ← for_range (correct_avr lead_i lead_ii) 0 (array_len (lead_samples l3)) (lead_samples l3);
  lead_avl ← for_range (correct_avl lead_i lead_iii) 0 (array_len (lead_samples l4)) (lead_samples l4);
  lead_avf ← for_range (correct_avf lead_ii lead_iii) 0 (array_len (lead_samples l5)) (lead_samples l5);
  Ok (<[5%nat := with_samples l5 lead_avf]>
      (<[4%nat := with_samples l4 lead_avl]>
       (<[3%nat := with_samples l3 lead_avr]>
        (<[2%nat := with_samples l2 lead_iii]> leads)))).

(** ** Representative beats *)

Definition decode_beat_samples (encoding text : string) : result ndarray :=
  decoded_waveform_data ←
    (if String.eqb encoding "Base64"
     then read_base64_encoding text
     else Err (UnsupportedXmlFileError
                 ("Representative beat waveform data encoding unsupported: " +:+ encoding)));
  frombuffer decoded_waveform_data.

(** One turn of the loop over the [repbeat] elements. *)
Definition read_repbeat (encoding : string) (samplingrate : Z) (resolution : pyfloat)
    (method : string) (item : node) : result EcgRepbeat :=
  label ← get_attr item "leadname" None;
  match get_opt_node item "waveform" with
  | Some waveform =>
      a_dur ← get_attr waveform "duration" None;
      duration ← Py.int a_dur;
      samples ← decode_beat_samples encoding (get_text waveform);
      Ok (mk_EcgRepbeat _ label samplingrate duration resolution method samples)
  | None =>
      a_dur ← get_attr item "duration" None;
      duration ← Py.int a_dur;
      samples ← decode_beat_samples encoding (get_text item);
      Ok (mk_EcgRepbeat _ label samplingrate duration resolution method samples)
  end.

Fixpoint repbeats_loop (encoding : string) (samplingrate : Z) (resolution : pyfloat)
    (method : string) (items : list node) (repbeats : gmap string EcgRepbeat)
    : result (gmap string EcgRepbeat) :=
  match items with
  | [] => Ok repbeats
  | item :: rest =>
      repbeat ← read_repbeat encoding samplingrate resolution method item;
      repbeats_loop encoding samplingrate resolution method rest
        (<[rb_label repbeat := repbeat]> repbeats)
  end.

Definition assert_reps (elt : node) : result (gmap string EcgRepbeat) :=
  match get_opt_node elt "repbeats" with
  | None => Ok ∅
  | Some elt_repbeats =>
      encoding ← get_attr elt_repbeats "dataencoding" None;
      a_rate ← get_attr elt_repbeats "samplespersec" (Some "0");
      samplingrate ← Py.int a_rate;
      a_res ← get_attr elt_repbeats "resolution" (Some "0");
      resolution ← raise_if_none ValueError (float_of_str a_res);
      method ← get_attr elt_repbeats "repbeatmethod" (Some "");
      repbeats_loop encoding samplingrate resolution method (get_nodes elt_repbeats "repbeat") ∅
  end.

(** ** The reader

    [read_file] as a function of the parsed document. The [repbeats] field
    of a result built without representative beats reads the class-level
    dictionary, which is empty as long as nobody has written to it; the
    identity of the containers is the subject of [Objects] below. *)
Definition read_file (xdom : node) (include_repbeats : bool) : result SierraEcgFile :=
  root ← get_node xdom "restingecgdata";
  '(doc_type, doc_ver) ← assert_version root;
  '(leads, labels) ← assert_leads root;
  leads' ← derive_leads leads;
  repbeats ← (if include_repbeats then assert_reps root else Ok ∅);
  Ok (mk_SierraEcgFile _ doc_type doc_ver leads' repbeats).

End Reader.

(** ** Object identity: who owns the containers of a result

    The class statement of [SierraEcgFile] creates one list and one
    dictionary when the module is imported; an instance reads an attribute
    from its own dictionary first and from the class otherwise. The store
    maps the identity of each container to its contents. *)
Module Objects.
Section WithHost.
Context `{host : Host}.

Definition loc : Type := nat.

Inductive container : Type :=
| ListOfLeads (l : list EcgLead)
| DictOfBeats (d : gmap string EcgRepbeat).

Record store : Type := mk_store {
  next_loc : loc;
  cells : gmap loc container
}.

Definition empty_store : store := mk_store 0%nat ∅.

Definition alloc (c : container) (σ : store) : loc * store :=
  (next_loc σ, mk_store (S (next_loc σ)) (<[next_loc σ := c]> (cells σ))).

(** The attributes of the class object. *)
Record class_object : Type := mk_class {
  cls_doc_type : string;
  cls_doc_ver : string;
  cls_leads : loc;
  cls_repbeats : loc
}.

(** [class SierraEcgFile: doc_type = ""; doc_ver = ""; leads = []; repbeats = {}] *)
Definition define_class (σ : store) : class_object * store :=
  let '(l, σ1) := alloc (ListOfLeads []) σ in
  let '(d, σ2) := alloc (DictOfBeats ∅) σ1 in
  (mk_class "" "" l d, σ2).

(** The attributes an instance holds itself. *)
Record instance : Type := mk_instance {
  own_doc_type : option string;
  own_doc_ver : option string;
  own_leads : option loc;
  own_repbeats : option loc
}.

Definition attr_doc_type (cls : class_object) (o : instance) : string :=
  default (cls_doc_type cls) (own_doc_type o).
Definition attr_doc_ver (cls : class_object) (o : instance) : string :=
  default (cls_doc_ver cls) (own_doc_ver o).
Definition attr_leads (cls : class_object) (o : instance) : loc :=
  default (cls_leads cls) (own_leads o).
Definition attr_repbeats (cls : class_object) (o : instance) : loc :=
  default (cls_repbeats cls) (own_repbeats o).

Definition read_file (cls : class_object) (xdom : node) (include_repbeats : bool) (σ : store)
    : result (instance * store) :=
  root ← get_node xdom "restingecgdata";
  '(doc_type, doc_ver) ← assert_version root;
  '(leads, labels) ← assert_leads root;
  leads' ← derive_leads leads;
  let '(l_leads, σ1) := alloc (ListOfLeads leads') σ in
  let sierra_ecg_file := mk_instance (Some doc_type) (Some doc_ver) (Some l_leads) None in
  if include_repbeats then
    repbeats ← assert_reps root;
    let '(l_beats, σ2) := alloc (DictOfBeats repbeats) σ1 in
    Ok (mk_instance (Some doc_type) (Some doc_ver) (Some l_leads) (Some l_beats), σ2)
  else Ok (sierra_ecg_file, σ1).

(** [d[key] = beat] on the dictionary stored at [l]. *)
Definition dict_setitem (l : loc) (key : string) (beat : EcgRepbeat) (σ : store) : store :=
  match cells σ !! l with
  | Some (DictOfBeats d) => mk_store (next_loc σ) (<[l := DictOfBeats (<[key := beat]> d)]> (cells σ))
  | _ => σ
  end.

Definition dict_at (l : loc) (σ : store) : option (gmap string EcgRepbeat) :=
  match cells σ !! l with
  | Some (DictOfBeats d) => Some d
  | _ => None
  end.

Definition list_at (l : loc) (σ : store) : option (list EcgLead) :=
  match cells σ !! l with
  | Some (ListOfLeads d) => Some d
  | _ => None
  end.

End WithHost.
End Objects.

(** ** A host for running the reader on concrete documents

    Base64 text is decoded by whole quadruples (RFC 4648, padded); a float
    literal is read when it is an integer literal; the codec stand-in hands
    out the 16-bit values of its input in equal contiguous shares, one
    writable array per label. *)
Module ExampleHost.

Definition b64_value (c : ascii) : option Z :=
  let n := Z.of_N (N_of_ascii c) in
  if (65 <=? n) && (n <=? 90) then Some (n - 65)
  else if (97 <=? n) && (n <=? 122) then Some (n - 71)
  else if (48 <=? n) && (n <=? 57) then Some (n + 4)
  else if n =? 43 then Some 62
  else if n =? 47 then Some 63
  else None.

Definition byte_of_Z (z : Z) : Byte.byte :=
  default Byte.x00 (Byte.of_N (Z.to_N (z `mod` 256))).

Fixpoint decode_quads (s : list ascii) : option (list Byte.byte) :=
  match s with
  | [] => Some []
  | [a; b; "="%char; "="%char] =>
      x ← b64_value a; y ← b64_value b;
      Some [byte_of_Z (x * 4 + y `div` 16)]
  | [a; b; c; "="%char] =>
      x ← b64_value a; y ← b64_value b; z ← b64_value c;
      Some [byte_of_Z (x * 4 + y `div` 16); byte_of_Z (y * 16 + z `div` 4)]
  | a :: b :: c :: d :: rest =>
      x ← b64_value a; y ← b64_value b; z ← b64_value c; w ← b64_value d;
      tail ← decode_quads rest;
      Some (byte_of_Z (x * 4 + y `div` 16) :: byte_of_Z (y * 16 + z `div` 4)
            :: byte_of_Z (z * 64 + w) :: tail)
  | _ => None
  end.

Definition decode (s : string) : option (list Byte.byte) :=
  decode_quads (list_ascii_of_string s).

Fixpoint shares (k : nat) (size : nat) (vals : list Z) : list ndarray :=
  match k with
  | O => []
  | S k' => mk_ndarray true (take size vals) :: shares k' size (drop size vals)
  end.

Definition codec (data : list Byte.byte) (labels : list string) : option (list ndarray) :=
  vals ← int16_values data;
  Some (shares (length labels) (length vals `div` length labels)%nat vals).

#[global] Instance host : Host := {
  pyfloat := Z;
  float_of_str := Py.int_opt;
  b64decode := decode;
  xli_decode := codec
}.

End ExampleHost.

(** ** Documents used in the examples *)
Module Examples.

Definition text_elem (tag txt : string) : node := Element tag [] [TextNode txt].

(** A [restingecgdata] document with the three sections the reader visits. *)
Definition document (doctype docver rate chan acq : string)
    (pw_attrs : list (string * string)) (payload : string) (extra : list node) : node :=
  Document [Element "restingecgdata" []
    ([Element "documentinfo" []
        [text_elem "documenttype" doctype; text_elem "documentversion" docver];
      Element "dataacquisition" []
        [Element "signalcharacteristics" []
           [text_elem "samplingrate" rate;
            text_elem "numberchannelsallocated" chan;
            text_elem "acquisitiontype" acq]];
      Element "parsedwaveforms" pw_attrs [TextNode payload]] ++ extra)].

Definition root_of (d : node) : node := default OtherNode (head (children d)).

Definition array (vals : list Z) : ndarray := mk_ndarray true vals.

Definition lead (name : string) (vals : list Z) : EcgLead :=
  mk_EcgLead name 500 10000 (array vals).

Definition six_leads (i ii iii avr avl avf : list Z) : list EcgLead :=
  [lead "I" i; lead "II" ii; lead "III" iii; lead "aVR" avr; lead "aVL" avl; lead "aVF" avf].

Definition samples_of (r : result (list EcgLead)) : list (list Z) :=
  match r with
  | Ok ls => (fun l => items (lead_samples l)) <$> ls
  | Err _ => []
  end.

(** The twelve values 1..12 as little-endian 16-bit words. *)
Definition twelve_values : list Byte.byte :=
  default [] (ExampleHost.decode "AQACAAMABAAFAAYABwAIAAkACgALAAwA").

(** The [signalcharacteristics] and [parsedwaveforms] elements alone. *)
Definition signal (rate chan acq : string) : node :=
  Element "signalcharacteristics" []
    [text_elem "samplingrate" rate;
     text_elem "numberchannelsallocated" chan;
     text_elem "acquisitiontype" acq].

Definition waveforms (pw_attrs : list (string * string)) (payload : string) : node :=
  Element "parsedwaveforms" pw_attrs [TextNode payload].

(** Six standard leads, one second at 500 Hz declared, two samples stored. *)
Definition short_payload : node :=
  document "SierraECG" "1.04" "500" "6" "STD-12"
    [("durationperchannel", "1000"); ("dataencoding", "Base64")] "AQACAA==" [].

(** Two channels of an unknown acquisition type, two samples each. *)
Definition two_channels : node :=
  document "PhilipsECG" "1.04.02" "500" "2" "HOLTER"
    [("durationperchannel", "4"); ("dataencoding", "Base64")] "AQACAAMABAA=" [].

(** Three explicitly labelled leads without any sample. *)
Definition three_leads : node :=
  document "SierraECG" "1.03" "500" "12" "STD-12"
    [("durationperchannel", "10000"); ("dataencoding", "Base64");
     ("leadlabels", "I II III"); ("numberofleads", "3")] "" [].

(** Six leads of one sample each, delivered by the codec. *)
Definition six_by_codec : node :=
  document "SierraECG" "1.04" "500" "12" "STD-12"
    [("durationperchannel", "2"); ("dataencoding", "Base64"); ("compression", "XLI");
     ("leadlabels", "I II III aVR aVL aVF"); ("numberofleads", "6")] "AgAEAAEAAAAAAAAA" [].

(** A [repbeats] container (current schema) with two entries for lead I
    and one for lead II. *)
Definition beat (leadname duration payload : string) : node :=
  Element "repbeat" [("leadname", leadname)]
    [Element "waveform" [("duration", duration)] [TextNode payload]].

Definition beats_container : node :=
  Element "repbeats" [("dataencoding", "Base64"); ("samplespersec", "1000")]
    [beat "I" "300" "AQACAA=="; beat "II" "350" ""; beat "I" "400" "AwAEAA=="].

Definition with_beats : node :=
  document "SierraECG" "1.04" "500" "12" "STD-12"
    [("durationperchannel", "2"); ("dataencoding", "Base64"); ("compression", "XLI");
     ("leadlabels", "I II III aVR aVL aVF"); ("numberofleads", "6")] "AgAEAAEAAAAAAAAA"
    [beats_container].

(** A container in an unknown encoding, empty and with one entry. *)
Definition hex_container (entries : list node) : node :=
  Element "repbeats" [("dataencoding", "Hex")] entries.

Definition hex_root : node := Element "restingecgdata" [] [hex_container []].

(** A document of a type the reader does not know. *)
Definition unknown_type : node :=
  document "HolterECG" "1.04" "500" "12" "STD-12" [] "" [].

Definition unknown_type_info : node :=
  Element "documentinfo" []
    [text_elem "documenttype" "HolterECG"; text_elem "documentversion" "1.04"].

(** Three labels declared, two leads announced. *)
Definition labelled_waveforms : node :=
  Element "parsedwaveforms" [("leadlabels", "I II III"); ("numberofleads", "2")] [].

Definition bare_signal : node := Element "signalcharacteristics" [] [].

Definition standard_signal : node := signal "500" "12" "STD-12".

(** A payload that declares a method the reader does not know. *)
Definition lzw_waveforms : node :=
  waveforms [("durationperchannel", "4"); ("dataencoding", "Base64");
             ("compressmethod", "LZW"); ("compression", "XLI")] "AQACAA==".

(** Twelve stored values for two leads of 6 ms at 500 Hz. *)
Definition two_lead_waveforms : node :=
  waveforms [("durationperchannel", "6"); ("dataencoding", "Base64")]
            "AQACAAMABAAFAAYABwAIAAkACgALAAwA".

Definition one_to_twelve : list Z := [1; 2; 3; 4; 5; 6; 7; 8; 9; 10; 11; 12].

Definition textbook_leads : list EcgLead := six_leads [2] [4] [1] [0] [0] [0].

Definition overflow_leads : list EcgLead := six_leads [-20000] [20000] [0] [0] [0] [0].

(** The class object and the store right after the module is imported. *)
Definition imported_class : Objects.class_object :=
  fst (Objects.define_class Objects.empty_store).

Definition imported_store : Objects.store :=
  snd (Objects.define_class Objects.empty_store).

End Examples.

(** ** Vocabulary of the statements *)

Definition type_supported (t : string) : Prop :=
  t = "SierraECG" ∨ t = "PhilipsECG".
Definition version_supported (v : string) : Prop :=
  v = "1.03" ∨ v = "1.04" ∨ v = "1.04.01" ∨ v = "1.04.02".

Definition unsupported_message (t v : string) : string :=
  "Files of type " +:+ t +:+ " " +:+ v +:+ " are unsupported".

Definition standard_acquisition (acq : string) : Prop :=
  acq = "STD-12" ∨ acq = "10-WIRE".

Definition limb_names : list string := ["I"; "II"; "III"; "aVR"; "aVL"; "aVF"].

(** The [k]-th contiguous block of [size] values. *)
Definition block (vals : list Z) (size k : nat) : list Z :=
  take size (drop (k * size) vals).

(** The compression method a [parsedwaveforms] element declares. *)
Definition declared_compression (parsed_waveforms : node) : string :=
  match attr parsed_waveforms "compressmethod" with
  | Some m => m
  | None =>
      match attr parsed_waveforms "compression" with
      | Some m => m
      | None => "Uncompressed"
      end
  end.

(** What the reader needs before it looks at the compression method: the
    sampling rate [f], the duration [d], the sample count [count] computed
    from them and the Base64 payload decoded to [data]. *)
Definition payload_decoded `{Host} (signal_details parsed_waveforms : node)
    (f d count : Z) (data : list Byte.byte) : Prop :=
  (∃ n_rate, get_node signal_details "samplingrate" = Ok n_rate ∧
             Py.int (get_text n_rate) = Ok f) ∧
  (∃ a_dur, attr parsed_waveforms "durationperchannel" = Some a_dur ∧
            Py.int a_dur = Ok d) ∧
  compute_sample_count d f = Ok count ∧
  attr parsed_waveforms "dataencoding" = Some "Base64" ∧
  b64decode (get_text parsed_waveforms) = Some data.

(** The corrections in exact integer arithmetic, as the format describes
    them, and the same corrections on 16-bit values. *)
Definition exact_iii (i ii iii : Z) : Z := ii - i - iii.
Definition exact_avr (i ii avr : Z) : Z := - avr - floor_half (i + ii).
Definition exact_avl (i iii' avl : Z) : Z := floor_half (i - iii') - avl.
Definition exact_avf (ii iii' avf : Z) : Z := floor_half (ii + iii') - avf.

Definition iii16 (i ii iii : Z) : Z := wrap16 (ii - i - iii).
Definition avr16 (i ii avr : Z) : Z := wrap16 (- avr - floor_half (wrap16 (i + ii))).
Definition avl16 (i iii' avl : Z) : Z := wrap16 (floor_half (wrap16 (i - iii')) - avl).
Definition avf16 (ii iii' avf : Z) : Z := wrap16 (floor_half (wrap16 (ii + iii')) - avf).

(** [zs[k] := g xs[k] ys[k] zs[k]] at every index of [zs]. *)
Definition pointwise (g : Z → Z → Z → Z) (xs ys zs : list Z) : list Z :=
  imap (λ k z, g (xs !!! k) (ys !!! k) z) zs.

Definition samples (l : EcgLead) : list Z := items (lead_samples l).

(** The attribute that holds the duration of a [repbeat] entry: on its
    [waveform] child when there is one, on the entry itself otherwise. *)
Definition beat_duration_attr (item : node) : option string :=
  match get_opt_node item "waveform" with
  | Some waveform => attr waveform "duration"
  | None => attr item "duration"
  end.

Definition beat_encoding_message (encoding : string) : string :=
  "Representative beat waveform data encoding unsupported: " +:+ encoding.

(** ** Further vocabulary *)

From Stdlib Require DecimalZ DecimalPos.


Definition encoding_message (encoding : string) : string :=
  "Waveform data encoding unsupported: " +:+ encoding.

(** What [get_waveform_data] reads before it looks at the encoding. *)
Definition geometry_read (signal_details parsed_waveforms : node) (f d count : Z) : Prop :=
  (∃ n_rate, get_node signal_details "samplingrate" = Ok n_rate ∧
             Py.int (get_text n_rate) = Ok f) ∧
  (∃ a_dur, attr parsed_waveforms "durationperchannel" = Some a_dur ∧
            Py.int a_dur = Ok d) ∧
  compute_sample_count d f = Ok count.

(** The three elements [assert_leads] starts from. *)
Definition waveform_elements (elt signal_details parsed_waveforms : node) : Prop :=
  ∃ acq, get_node elt "dataacquisition" = Ok acq ∧
         get_node acq "signalcharacteristics" = Ok signal_details ∧
         get_node elt "parsedwaveforms" = Ok parsed_waveforms.

(** Two leads that differ in their samples only. *)
Definition same_lead_but_samples (l l' : EcgLead) : Prop :=
  lead_label l' = lead_label l ∧
  lead_sampling_freq l' = lead_sampling_freq l ∧
  lead_duration l' = lead_duration l ∧
  array_len (lead_samples l') = array_len (lead_samples l).

(** The property every loop keeps: the length, and the 16-bit range. *)
Definition kept (t0 t : ndarray) : Prop :=
  array_len t = array_len t0 ∧ (Forall int16 (items t0) → Forall int16 (items t)).

(** The settings a [repbeats] container passes on to each of its beats. *)
Definition carries_settings `{Host} (container : node) (beat : EcgRepbeat) : Prop :=
  Py.int (default "0" (attr container "samplespersec")) = Ok (rb_sampling_freq beat) ∧
  float_of_str (default "0" (attr container "resolution")) = Some (rb_resolution beat) ∧
  rb_method beat = default "" (attr container "repbeatmethod") ∧
  writeable (rb_samples beat) = false.

(** Two results that differ in their representative beats only. *)
Definition same_file_but_beats `{Host} (file file' : SierraEcgFile) : Prop :=
  doc_type file' = doc_type file ∧ doc_ver file' = doc_ver file ∧ leads file' = leads file.

(** The text nodes among some children. *)
Definition text_of (kids : list node) : string :=
  get_text (Element "" [] kids).

(** ** Further documents *)
Module Cases.

(** A [restingecgdata] element nested two levels below the document. *)
Definition nested : node :=
  Document [OtherNode;
            Element "envelope" []
              [Element "restingecgdata" [("id", "1")]
                 [Element "documentinfo" [] [Examples.text_elem "documenttype" "SierraECG"]]]].

(** A payload in hexadecimal that also declares an unknown compression. *)
Definition hex_waveforms : node :=
  Examples.waveforms [("durationperchannel", "4"); ("dataencoding", "Hex");
                      ("compressmethod", "LZW")] "01000200".

(** Three bytes. *)
Definition odd_buffer : list Byte.byte := [Byte.x01; Byte.x00; Byte.x02].

(** Four values for three leads of three samples. *)
Definition four_values : list Byte.byte :=
  default [] (ExampleHost.decode "AQACAAMABAA=").

(** Six standard leads of two samples each, stored uncompressed. *)
Definition six_uncompressed : node :=
  Examples.document "SierraECG" "1.04" "500" "6" "STD-12"
    [("durationperchannel", "4"); ("dataencoding", "Base64")]
    "CgAUAB4AKAAyADwARgBQAFoAZABuAHgA" [].

(** Two channels declared with a duration of zero. *)
Definition zero_duration : node :=
  Examples.document "SierraECG" "1.04" "500" "2" "STD-12"
    [("durationperchannel", "0"); ("dataencoding", "Base64")] "AQACAA==" [].

(** Lead III is one sample longer than leads I and II. *)
Definition short_i : EcgLead := Examples.lead "I" [2].
Definition long_iii : EcgLead := Examples.lead "III" [1; 5].

Definition ragged_leads : list EcgLead :=
  [short_i; Examples.lead "II" [4]; long_iii;
   Examples.lead "aVR" [0]; Examples.lead "aVL" [0]; Examples.lead "aVF" [0]].

(** Three sequences of one sample. *)
Definition three_arrays : list ndarray :=
  [Examples.array [1]; Examples.array [2]; Examples.array [3]].

(** Labels declared with a negative count. *)
Definition negative_count : node :=
  Element "parsedwaveforms" [("leadlabels", "I II III"); ("numberofleads", "-1")] [].

(** Fourteen channels of a standard acquisition, no explicit labels. *)
Definition fourteen_channels : node := Examples.signal "500" "14" "STD-12".

(** A container whose second entry has no [leadname]. *)
Definition nameless_entry : node :=
  Element "repbeat" [] [Element "waveform" [("duration", "300")] [TextNode ""]].

Definition broken_container : node :=
  Element "repbeats" [("dataencoding", "Base64")]
    [Examples.beat "I" "300" "AQACAA=="; nameless_entry].

Definition broken_root : node := Element "restingecgdata" [] [broken_container].

(** Text in two pieces around a comment and a nested element. *)
Definition mixed_content : list node :=
  [TextNode "AQAC"; OtherNode; Element "b" [] [TextNode "zzzz"]; TextNode "AA=="].

End Cases.

(** * Properties *)

(** ** The error monad *)

Lemma bind_Ok {A B} (r : result A) (k : A → result B) (b : B) :
  r ≫= k = Ok b → ∃ a, r = Ok a ∧ k a = Ok b.
Proof. destruct r as [a|e]; cbn; [eauto | discriminate]. Qed.

Lemma bind_of_Ok {A B} (a : A) (k : A → result B) : Ok a ≫= k = k a.
Proof. reflexivity. Qed.

Lemma raise_if_none_Ok {A} (e : error) (o : option A) (a : A) :
  raise_if_none e o = Ok a ↔ o = Some a.
Proof. destruct o; cbn; split; congruence. Qed.

Ltac bind_inv H :=
  let a := fresh "a" in
  let Ha := fresh "Ha" in
  apply bind_Ok in H; destruct H as (a & Ha & H).

(** ** Attribute access *)

Lemma get_attr_present (xdoc : node) (attr_name : string) (default : option string) (v : string) :
  attr xdoc attr_name = Some v → get_attr xdoc attr_name default = Ok v.
Proof. intros E. unfold get_attr. by rewrite E. Qed.

Lemma get_attr_default (xdoc : node) (attr_name d : string) :
  attr xdoc attr_name = None → get_attr xdoc attr_name (Some d) = Ok d.
Proof. intros E. unfold get_attr. by rewrite E. Qed.

Lemma get_attr_missing (xdoc : node) (attr_name : string) :
  attr xdoc attr_name = None →
  get_attr xdoc attr_name None = Err (MissingXmlAttributeError attr_name).
Proof. intros E. unfold get_attr. by rewrite E. Qed.

Lemma get_attr_required (xdoc : node) (attr_name v : string) :
  get_attr xdoc attr_name None = Ok v ↔ attr xdoc attr_name = Some v.
Proof. unfold get_attr. destruct (attr xdoc attr_name); split; congruence. Qed.

Lemma get_attr_with_default (xdoc : node) (attr_name d : string) :
  get_attr xdoc attr_name (Some d) = Ok (default d (attr xdoc attr_name)).
Proof. unfold get_attr. by destruct (attr xdoc attr_name). Qed.

(** ** Strings *)

Lemma str_in_spec (s : string) (l : list string) : str_in s l = true ↔ s ∈ l.
Proof.
  unfold str_in. rewrite existsb_exists. split.
  - intros (x & Hx & He). apply String.eqb_eq in He. subst. by apply list_elem_of_In.
  - intros Hin. exists s. split; [by apply list_elem_of_In | apply String.eqb_refl].
Qed.

(** ** Version gate *)

Lemma type_supported_spec t : str_in t supported_types = true ↔ type_supported t.
Proof.
  rewrite str_in_spec. unfold supported_types, type_supported.
  rewrite !elem_of_cons, elem_of_nil. tauto.
Qed.

Lemma version_supported_spec v : str_in v supported_versions = true ↔ version_supported v.
Proof.
  rewrite str_in_spec. unfold supported_versions, version_supported.
  rewrite !elem_of_cons, elem_of_nil. tauto.
Qed.

(** C3. With the three version elements in place, [assert_version] returns
    the (type, version) pair exactly when the type is one of the two
    identifiers and the version one of the four revisions; in every other
    case it raises [UnsupportedXmlFileError] with a message that spells
    out both texts, and [read_file] stops with that same error whatever
    the rest of the document holds. *)
Theorem C3_version_gate `{Host} (xdom root doc_info n_type n_ver : node) (include_repbeats : bool) :
  get_node xdom "restingecgdata" = Ok root →
  get_node root "documentinfo" = Ok doc_info →
  get_node doc_info "documenttype" = Ok n_type →
  get_node doc_info "documentversion" = Ok n_ver →
  let t := get_text n_type in
  let v := get_text n_ver in
  (type_supported t ∧ version_supported v → assert_version root = Ok (t, v)) ∧
  (¬ (type_supported t ∧ version_supported v) →
     assert_version root = Err (UnsupportedXmlFileError (unsupported_message t v)) ∧
     read_file xdom include_repbeats = Err (UnsupportedXmlFileError (unsupported_message t v))).
Proof.
  intros Hroot Hinfo Htype Hver t v.
  assert (Hgate : assert_version root =
            if negb (str_in t supported_types) || negb (str_in v supported_versions)
            then Err (UnsupportedXmlFileError (unsupported_message t v))
            else Ok (t, v)).
  { unfold assert_version. rewrite Hinfo. cbn. rewrite Htype. cbn. rewrite Hver. reflexivity. }
  split.
  - intros [Ht Hv]. rewrite Hgate.
    apply type_supported_spec in Ht. apply version_supported_spec in Hv.
    fold t in Ht. fold v in Hv. by rewrite Ht, Hv.
  - intros Hno.
    assert (Hbad : negb (str_in t supported_types) || negb (str_in v supported_versions) = true).
    { destruct (str_in t supported_types) eqn:Et; [|done].
      destruct (str_in v supported_versions) eqn:Ev; [|done].
      exfalso. apply Hno. split;
        [by apply type_supported_spec | by apply version_supported_spec]. }
    rewrite Hbad in Hgate. split; [done|].
    unfold read_file. rewrite Hroot. cbn. by rewrite Hgate.
Qed.

(** C3 at a document of an unknown type: the gate raises, and so does
    [read_file]. *)
Lemma C3_version_gate_witness :
  get_node Examples.unknown_type "restingecgdata" = Ok (Examples.root_of Examples.unknown_type) ∧
  get_node (Examples.root_of Examples.unknown_type) "documentinfo" = Ok Examples.unknown_type_info ∧
  get_node Examples.unknown_type_info "documenttype"
    = Ok (Examples.text_elem "documenttype" "HolterECG") ∧
  get_node Examples.unknown_type_info "documentversion"
    = Ok (Examples.text_elem "documentversion" "1.04") ∧
  read_file Examples.unknown_type false
    = Err (UnsupportedXmlFileError "Files of type HolterECG 1.04 are unsupported").
Proof.
  do 4 (split; [reflexivity|]).
  apply (C3_version_gate Examples.unknown_type (Examples.root_of Examples.unknown_type)
           Examples.unknown_type_info
           (Examples.text_elem "documenttype" "HolterECG")
           (Examples.text_elem "documentversion" "1.04") false); try reflexivity.
  intros [[Ht | Ht] _]; discriminate Ht.
Defined.

(** ** Lead labels *)

Lemma slice_to_take {A} (l : list A) (n : Z) :
  0 <= n → Py.slice_to l n = take (Z.to_nat n) l.
Proof.
  intros Hn. unfold Py.slice_to, Py.slice, Py.clamp_index.
  replace (0 <? 0) with false by done.
  replace (n <? 0) with false by (symmetry; apply Z.ltb_ge; lia).
  rewrite (Z.min_l 0) by lia. change (Z.to_nat 0) with 0%nat. rewrite drop_0.
  destruct (decide (n <= Z.of_nat (length l))) as [Hle | Hgt].
  - rewrite Z.min_l by lia. by rewrite Z.sub_0_r.
  - rewrite Z.min_r by lia. rewrite Z.sub_0_r, Nat2Z.id.
    rewrite !take_ge; [done | lia | lia].
Qed.

Lemma range_shift {B} (g : Z → B) (n : Z) :
  (λ x, g (x + 1)) <$> Py.range n = (λ k : nat, g (Z.of_nat k)) <$> seq 1 (Z.to_nat n).
Proof.
  unfold Py.range. rewrite <- fmap_S_seq, <- !list_fmap_compose.
  apply list_fmap_ext. intros _ k _. cbn. f_equal. lia.
Qed.

Lemma standard_acquisition_spec acq :
  str_in acq ["STD-12"; "10-WIRE"] = true ↔ standard_acquisition acq.
Proof.
  rewrite str_in_spec. unfold standard_acquisition.
  rewrite !elem_of_cons, elem_of_nil. tauto.
Qed.

Lemma get_lead_name_other acq index :
  ¬ standard_acquisition acq → get_lead_name acq index = "Channel " +:+ Py.str index.
Proof.
  intros Hno. unfold get_lead_name.
  destruct (str_in acq _) eqn:E; [|done].
  by apply standard_acquisition_spec in E.
Qed.

(** C6. Explicit labels: a non-empty [leadlabels] attribute is cut at every
    space and truncated to the first [numberofleads] pieces. Synthesised
    labels: without that attribute (or with an empty one) the labels are
    the names of the indices 1..[numberchannelsallocated], where for the
    acquisition types STD-12 and 10-WIRE the indices 1-6 are I, II, III,
    aVR, aVL, aVF and 7-12 are V1..V6, and every other index or
    acquisition type gives "Channel <index>". *)
Theorem C6_label_resolution (signal_details parsed_waveforms : node) :
  (∀ lead_labels a n,
     attr parsed_waveforms "leadlabels" = Some lead_labels →
     lead_labels ≠ "" →
     attr parsed_waveforms "numberofleads" = Some a →
     Py.int a = Ok n →
     0 <= n →
     get_or_create_labels signal_details parsed_waveforms
       = Ok (take (Z.to_nat n) (Py.split_space lead_labels))) ∧
  (∀ n_chan n_acq count,
     attr parsed_waveforms "leadlabels" = None ∨ attr parsed_waveforms "leadlabels" = Some "" →
     get_node signal_details "numberchannelsallocated" = Ok n_chan →
     Py.int (get_text n_chan) = Ok count →
     get_node signal_details "acquisitiontype" = Ok n_acq →
     get_or_create_labels signal_details parsed_waveforms
       = Ok ((λ index : nat, get_lead_name (get_text n_acq) (Z.of_nat index))
               <$> seq 1 (Z.to_nat count))) ∧
  (∀ acq index,
     (standard_acquisition acq → 1 <= index <= 6 →
        limb_names !! Z.to_nat (index - 1) = Some (get_lead_name acq index)) ∧
     (standard_acquisition acq → 7 <= index <= 12 →
        get_lead_name acq index = "V" +:+ Py.str (index - 6)) ∧
     (¬ standard_acquisition acq ∨ index < 1 ∨ 12 < index →
        get_lead_name acq index = "Channel " +:+ Py.str index)).
Proof.
  split; [|split].
  - intros lead_labels a n Hl Hne Ha Hn Hpos.
    unfold get_or_create_labels. rewrite (get_attr_present _ _ _ _ Hl). cbn.
    destruct (String.eqb lead_labels "") eqn:E; [by apply String.eqb_eq in E|]. cbn.
    rewrite (get_attr_present _ _ _ _ Ha). cbn. rewrite Hn. cbn.
    by rewrite slice_to_take.
  - intros n_chan n_acq count Hl Hc Hcount Hacq.
    unfold get_or_create_labels.
    assert (E : get_attr parsed_waveforms "leadlabels" (Some "") = Ok "")
      by (rewrite get_attr_with_default; destruct Hl as [-> | ->]; reflexivity).
    rewrite E. cbn. rewrite Hc. cbn. rewrite Hcount. cbn. rewrite Hacq. cbn.
    by rewrite (range_shift (get_lead_name (get_text n_acq))).
  - intros acq index. split; [|split].
    + intros Hstd Hidx. apply standard_acquisition_spec in Hstd.
      unfold get_lead_name. rewrite Hstd.
      assert (Hcases : index = 1 ∨ index = 2 ∨ index = 3 ∨ index = 4 ∨ index = 5 ∨ index = 6) by lia.
      destruct Hcases as [-> | [-> | [-> | [-> | [-> | ->]]]]]; reflexivity.
    + intros Hstd Hidx. apply standard_acquisition_spec in Hstd.
      unfold get_lead_name. rewrite Hstd.
      repeat match goal with
             | |- context [?x =? ?y] => replace (x =? y) with false by (symmetry; apply Z.eqb_neq; lia)
             end.
      replace (6 <? index) with true by (symmetry; apply Z.ltb_lt; lia).
      replace (index <=? 12) with true by (symmetry; apply Z.leb_le; lia).
      reflexivity.
    + intros [Hno | Hout]; [by apply get_lead_name_other|].
      unfold get_lead_name. destruct (str_in acq _); [|done].
      repeat match goal with
             | |- context [?x =? ?y] => replace (x =? y) with false by (symmetry; apply Z.eqb_neq; lia)
             end.
      destruct (6 <? index) eqn:E1; [|done].
      apply Z.ltb_lt in E1.
      replace (index <=? 12) with false by (symmetry; apply Z.leb_gt; lia).
      reflexivity.
Qed.

(** C6 at [leadlabels="I II III"], [numberofleads="2"]: exactly I and II. *)
Lemma C6_label_resolution_witness :
  attr Examples.labelled_waveforms "leadlabels" = Some "I II III" ∧
  "I II III" ≠ "" ∧
  attr Examples.labelled_waveforms "numberofleads" = Some "2" ∧
  Py.int "2" = Ok 2 ∧
  0 <= 2 ∧
  get_or_create_labels Examples.bare_signal Examples.labelled_waveforms = Ok ["I"; "II"].
Proof.
  split; [reflexivity|]. split; [discriminate|]. do 2 (split; [reflexivity|]).
  split; [discriminate|].
  exact (proj1 (C6_label_resolution Examples.bare_signal Examples.labelled_waveforms)
           "I II III" "2" 2
           eq_refl ltac:(discriminate) eq_refl eq_refl ltac:(discriminate)).
Defined.

(** ** Splitting the payload into leads *)

Lemma slice_window {A} (l : list A) (i n : Z) :
  0 <= i → 0 <= n →
  Py.slice l i (i + n) = take (Z.to_nat n) (drop (Z.to_nat i) l).
Proof.
  intros Hi Hn. unfold Py.slice, Py.clamp_index.
  replace (i <? 0) with false by (symmetry; apply Z.ltb_ge; lia).
  replace (i + n <? 0) with false by (symmetry; apply Z.ltb_ge; lia).
  set (len := Z.of_nat (length l)).
  destruct (decide (i <= len)) as [Hle | Hgt].
  - rewrite (Z.min_l i) by lia.
    destruct (decide (i + n <= len)) as [Hle2 | Hgt2].
    + rewrite Z.min_l by lia. f_equal. lia.
    + rewrite Z.min_r by lia.
      rewrite !take_ge; [done | |]; rewrite length_drop; lia.
  - rewrite !Z.min_r by lia. rewrite Z.sub_diag. cbn [Z.to_nat take].
    rewrite (drop_ge l (Z.to_nat i)) by lia. by rewrite take_nil.
Qed.

Section SplitLeads.
Context `{host : Host}.

Lemma split_loop_run (all_samples : ndarray) (samples : Z) (m k : nat) (acc : list ndarray) :
  0 < samples →
  split_loop m all_samples (Z.of_nat (k + m) * samples) samples (Z.of_nat k * samples) acc
  = Some (acc ++ ((λ j : nat, array_slice all_samples (Z.of_nat j * samples)
                                (Z.of_nat j * samples + samples)) <$> seq k m)).
Proof.
  intros Hs. revert k acc. induction m as [|m IH]; intros k acc.
  - cbn [split_loop]. rewrite Nat.add_0_r, Z.ltb_irrefl. cbn. by rewrite app_nil_r.
  - cbn [split_loop].
    replace (Z.of_nat k * samples <? Z.of_nat (k + S m) * samples) with true
      by (symmetry; apply Z.ltb_lt; nia).
    replace (Z.of_nat (k + S m)) with (Z.of_nat (S k + m)) by lia.
    replace (Z.of_nat k * samples + samples) with (Z.of_nat (S k) * samples) by lia.
    rewrite IH. cbn [seq fmap list_fmap]. rewrite <- app_assoc. cbn.
    do 4 f_equal. lia.
Qed.

(** The loop of [split_leads] never runs out of its fuel. *)
Lemma split_loop_fuel (all_samples : ndarray) (lead_count : nat) (samples : Z) :
  split_loop lead_count all_samples (Z.of_nat lead_count * samples) samples 0 [] ≠ None.
Proof.
  destruct (decide (0 < samples)) as [Hs | Hs].
  - pose proof (split_loop_run all_samples samples lead_count 0 [] Hs) as E.
    change (Z.of_nat 0 * samples) with 0 in E.
    change (0 + lead_count)%nat with lead_count in E.
    rewrite E. done.
  - destruct lead_count; cbn [split_loop];
      replace (0 <? _) with false by (symmetry; apply Z.ltb_ge; nia); done.
Qed.

Lemma split_leads_nonpositive (data : list Byte.byte) (vals : list Z) (lead_count : nat) (samples : Z) :
  int16_values data = Some vals → samples <= 0 →
  split_leads data lead_count samples = Ok [].
Proof.
  intros Hv Hs. unfold split_leads, frombuffer. rewrite Hv. cbn.
  destruct lead_count; cbn [split_loop];
    replace (0 <? _) with false by (symmetry; apply Z.ltb_ge; nia); done.
Qed.

Lemma concat_blocks (vals : list Z) (size n : nat) :
  concat ((λ k, block vals size k) <$> seq 0 n) = take (n * size) vals.
Proof.
  induction n as [|n IH]; [done|].
  rewrite seq_S, fmap_app, concat_app, IH. cbn. rewrite app_nil_r.
  unfold block. rewrite take_take_drop. f_equal. lia.
Qed.

Lemma split_leads_blocks (data : list Byte.byte) (vals : list Z)
    (lead_count : nat) (samples : Z) :
  int16_values data = Some vals →
  0 < samples →
  ∃ leads,
    split_leads data lead_count samples = Ok leads ∧
    length leads = lead_count ∧
    (∀ k, (k < lead_count)%nat →
          items <$> leads !! k = Some (block vals (Z.to_nat samples) k)) ∧
    concat (items <$> leads) = take (lead_count * Z.to_nat samples) vals.
Proof.
  intros Hv Hs.
  pose proof (split_loop_run (mk_ndarray false vals) samples lead_count 0 [] Hs) as E.
  change (Z.of_nat 0 * samples) with 0 in E.
  change (0 + lead_count)%nat with lead_count in E.
  cbn [app] in E.
  eexists. split; [|split; [|split]].
  - unfold split_leads, frombuffer. rewrite Hv. cbn. rewrite E. reflexivity.
  - by rewrite length_fmap, length_seq.
  - intros k Hk. rewrite list_lookup_fmap, lookup_seq_lt by done. cbn.
    unfold array_slice, block. cbn. rewrite slice_window by lia.
    do 3 f_equal. nia.
  - rewrite <- concat_blocks, <- list_fmap_compose. f_equal.
    apply list_fmap_ext. intros _ k _. cbn.
    unfold array_slice, block. cbn. rewrite slice_window by lia.
    do 2 f_equal. nia.
Qed.

(** [split_leads] returns for every buffer of even size. *)
Lemma split_leads_total (data : list Byte.byte) (vals : list Z) (lead_count : nat) (samples : Z) :
  int16_values data = Some vals →
  ∃ leads, split_leads data lead_count samples = Ok leads.
Proof.
  intros Hv. destruct (decide (0 < samples)) as [Hs | Hs].
  - destruct (split_leads_blocks data vals lead_count samples Hv Hs) as (leads & H & _). eauto.
  - exists []. apply split_leads_nonpositive with vals; [done | lia].
Qed.

(** C2. The decoded buffer, read as little-endian signed 16-bit values, is
    cut into [lead_count] leads by contiguous blocks of [samples] values:
    lead [k] is the block of values [k * samples .. (k+1) * samples - 1];
    together the leads hold the first [lead_count * samples] values and
    nothing beyond them. *)
Theorem C2_split_leads_blocks (data : list Byte.byte) (vals : list Z)
    (lead_count : nat) (samples : Z) :
  int16_values data = Some vals →
  0 < samples →
  ∃ leads,
    split_leads data lead_count samples = Ok leads ∧
    length leads = lead_count ∧
    (∀ k, (k < lead_count)%nat →
          items <$> leads !! k = Some (block vals (Z.to_nat samples) k)) ∧
    concat (items <$> leads) = take (lead_count * Z.to_nat samples) vals.
Proof. apply split_leads_blocks. Qed.

End SplitLeads.

(** C2 at [lead_count = 2], [samples = 3] and the values 1..12: lead 0 is
    [1,2,3], lead 1 is [4,5,6], and 7..12 are dropped. *)
Lemma C2_split_leads_blocks_witness :
  int16_values Examples.twelve_values = Some Examples.one_to_twelve ∧
  0 < 3 ∧
  ∃ leads,
    split_leads Examples.twelve_values 2 3 = Ok leads ∧
    items <$> leads = [[1; 2; 3]; [4; 5; 6]].
Proof.
  split; [reflexivity|]. split; [reflexivity|].
  destruct (C2_split_leads_blocks Examples.twelve_values Examples.one_to_twelve
              2 3 eq_refl eq_refl)
    as (leads & Hrun & Hlen & Hblock & _).
  exists leads. split; [exact Hrun|].
  pose proof (Hblock 0%nat ltac:(lia)) as H0.
  pose proof (Hblock 1%nat ltac:(lia)) as H1.
  destruct leads as [|a [|b [|c leads]]]; try discriminate Hlen.
  injection H0 as H0. injection H1 as H1.
  cbn [fmap list_fmap]. rewrite H0, H1. reflexivity.
Defined.

(** ** Compression dispatch *)

Section Waveform.
Context `{host : Host}.

Lemma infer_compression_spec (parsed_waveforms : node) :
  infer_compression parsed_waveforms = Ok (declared_compression parsed_waveforms).
Proof.
  unfold infer_compression, declared_compression.
  rewrite !get_attr_with_default. cbn. rewrite get_attr_with_default.
  destruct (attr parsed_waveforms "compressmethod"); [done|].
  by destruct (attr parsed_waveforms "compression").
Qed.

Lemma get_waveform_data_dispatch (signal_details parsed_waveforms : node) (labels : list string)
    (f d count : Z) (data : list Byte.byte) :
  payload_decoded signal_details parsed_waveforms f d count data →
  get_waveform_data signal_details parsed_waveforms labels =
    let method := declared_compression parsed_waveforms in
    if negb (String.eqb method "Uncompressed") then
      if String.eqb method "XLI"
      then raise_if_none CodecError (xli_decode data labels)
      else Err (UnsupportedXmlFileError
                  ("Waveform data compression algorithm unsupported: " +:+ method))
    else split_leads data (length labels) count.
Proof.
  intros ((n_rate & Hrate & Hf) & (a_dur & Hdur & Hd) & Hcount & Henc & Hdata).
  unfold get_waveform_data. rewrite Hrate. cbn. rewrite Hf. cbn.
  rewrite (get_attr_present _ _ _ _ Hdur). cbn. rewrite Hd. cbn. rewrite Hcount. cbn.
  rewrite (get_attr_present _ _ _ _ Henc). cbn.
  unfold read_base64_encoding. rewrite Hdata. cbn.
  rewrite infer_compression_spec. reflexivity.
Qed.

(** The leads are paired with the labels by position. *)
Lemma build_leads_pairs (sampling_freq duration : Z) (waveform_data : list ndarray)
    (labels : list string) (index : nat) (built : list EcgLead) :
  build_leads sampling_freq duration waveform_data index labels = Ok built →
  lead_label <$> built = labels ∧
  (∀ i l, built !! i = Some l → waveform_data !! (index + i)%nat = Some (lead_samples l)).
Proof.
  revert index built. induction labels as [|label labels IH]; intros index built H.
  - injection H as <-. split; [done|]. intros i l Hl. by rewrite lookup_nil in Hl.
  - cbn in H. apply bind_Ok in H as (arr & Harr & H). apply raise_if_none_Ok in Harr.
    apply bind_Ok in H as (tail & Htail & H). injection H as <-.
    destruct (IH _ _ Htail) as [Hlabels Hsamples].
    split; [cbn; by rewrite Hlabels|].
    intros [|i] l Hl; cbn in Hl.
    + injection Hl as <-. cbn. by rewrite Nat.add_0_r.
    + rewrite <- Nat.add_succ_comm. by apply Hsamples.
Qed.

(** C7. The method is the [compressmethod] attribute when present, else the
    [compression] attribute, else "Uncompressed". Once the payload is
    decoded, the method "XLI" hands the byte buffer and the label list to
    the codec and returns what the codec returns; a method that is neither
    "Uncompressed" nor "XLI" raises [UnsupportedXmlFileError] with a
    message that ends with that method. The sequences that come back are
    attached to the labels by position, the first to the first label. *)
Theorem C7_compression_dispatch (signal_details parsed_waveforms : node) (labels : list string)
    (f d count : Z) (data : list Byte.byte) :
  payload_decoded signal_details parsed_waveforms f d count data →
  let method := declared_compression parsed_waveforms in
  infer_compression parsed_waveforms = Ok method ∧
  (method = "XLI" →
     get_waveform_data signal_details parsed_waveforms labels
       = raise_if_none CodecError (xli_decode data labels)) ∧
  (method ≠ "Uncompressed" → method ≠ "XLI" →
     get_waveform_data signal_details parsed_waveforms labels
       = Err (UnsupportedXmlFileError
                ("Waveform data compression algorithm unsupported: " +:+ method))) ∧
  (method = "Uncompressed" →
     get_waveform_data signal_details parsed_waveforms labels
       = split_leads data (length labels) count) ∧
  (∀ waveform_data built,
     build_leads f d waveform_data 0 labels = Ok built →
     lead_label <$> built = labels ∧
     ∀ i l, built !! i = Some l → waveform_data !! i = Some (lead_samples l)).
Proof.
  intros Hpre method. split; [apply infer_compression_spec|].
  rewrite (get_waveform_data_dispatch _ _ _ _ _ _ _ Hpre). fold method. cbn zeta.
  split; [|split; [|split]].
  - intros ->. reflexivity.
  - intros Hu Hx.
    destruct (String.eqb method "Uncompressed") eqn:Eu; [by apply String.eqb_eq in Eu|].
    destruct (String.eqb method "XLI") eqn:Ex; [by apply String.eqb_eq in Ex|].
    reflexivity.
  - intros ->. reflexivity.
  - intros waveform_data built H. by apply build_leads_pairs in H.
Qed.

End Waveform.

(** C7 at a payload that declares the method "LZW": the reader refuses it
    by name. *)
Lemma C7_compression_dispatch_witness :
  payload_decoded Examples.standard_signal Examples.lzw_waveforms 500 4 2
    [Byte.x01; Byte.x00; Byte.x02; Byte.x00] ∧
  infer_compression Examples.lzw_waveforms = Ok "LZW" ∧
  get_waveform_data Examples.standard_signal Examples.lzw_waveforms ["I"; "II"]
    = Err (UnsupportedXmlFileError "Waveform data compression algorithm unsupported: LZW").
Proof.
  assert (Hpre : payload_decoded Examples.standard_signal Examples.lzw_waveforms 500 4 2
                   [Byte.x01; Byte.x00; Byte.x02; Byte.x00]).
  { split; [eexists; split; reflexivity|].
    split; [eexists; split; reflexivity|].
    repeat split; reflexivity. }
  split; [exact Hpre|].
  destruct (C7_compression_dispatch Examples.standard_signal Examples.lzw_waveforms
              ["I"; "II"] 500 4 2 _ Hpre) as (Hm & _ & Hother & _).
  split; [exact Hm|].
  apply Hother; discriminate.
Defined.

(** ** Length of the directly decoded leads *)

Section LeadLength.
Context `{host : Host}.

(** C5, as amended. On the uncompressed path, when the decoded buffer holds
    at least [lead_count * sample_count] 16-bit values and the
    double-precision evaluation of [int(duration * (sampling_freq / 1000))]
    gives [floor(duration * sampling_freq / 1000)], decoding succeeds and
    every lead has exactly that many samples. *)
Theorem C5_decoded_lead_length (signal_details parsed_waveforms : node) (labels : list string)
    (f d : Z) (data : list Byte.byte) (vals : list Z) :
  payload_decoded signal_details parsed_waveforms f d ((d * f) `div` 1000) data →
  declared_compression parsed_waveforms = "Uncompressed" →
  int16_values data = Some vals →
  Z.of_nat (length labels) * ((d * f) `div` 1000) <= Z.of_nat (length vals) →
  ∃ leads,
    get_waveform_data signal_details parsed_waveforms labels = Ok leads ∧
    Forall (λ a, Z.of_nat (array_len a) = (d * f) `div` 1000) leads.
Proof.
  intros Hpre Hu Hvals Hlen.
  rewrite (get_waveform_data_dispatch _ _ _ _ _ _ _ Hpre), Hu. cbn.
  set (count := (d * f) `div` 1000) in *.
  destruct (decide (0 < count)) as [Hpos | Hneg].
  - destruct (split_leads_blocks data vals (length labels) count Hvals Hpos)
      as (leads & Hrun & Hn & Hblock & _).
    exists leads. split; [done|].
    apply Forall_lookup. intros k a Hk.
    assert (Hklt : (k < length labels)%nat) by (rewrite <- Hn; by eapply lookup_lt_Some).
    specialize (Hblock k Hklt). rewrite Hk in Hblock. injection Hblock as Hitems.
    unfold array_len. rewrite Hitems. unfold block.
    rewrite length_take, length_drop. nia.
  - exists []. split; [|done].
    apply split_leads_nonpositive with vals; [done | lia].
Qed.

End LeadLength.

(** C5 at two leads of three samples (6 ms at 500 Hz) over twelve stored
    values. *)
Lemma C5_decoded_lead_length_witness :
  payload_decoded Examples.standard_signal Examples.two_lead_waveforms 500 6
    ((6 * 500) `div` 1000) Examples.twelve_values ∧
  declared_compression Examples.two_lead_waveforms = "Uncompressed" ∧
  int16_values Examples.twelve_values = Some Examples.one_to_twelve ∧
  Z.of_nat (length ["I"; "II"]) * ((6 * 500) `div` 1000)
    <= Z.of_nat (length Examples.one_to_twelve) ∧
  ∃ leads,
    get_waveform_data Examples.standard_signal Examples.two_lead_waveforms ["I"; "II"] = Ok leads ∧
    Forall (λ a, Z.of_nat (array_len a) = 3) leads.
Proof.
  assert (Hpre : payload_decoded Examples.standard_signal Examples.two_lead_waveforms 500 6
                   ((6 * 500) `div` 1000) Examples.twelve_values).
  { split; [eexists; split; reflexivity|].
    split; [eexists; split; reflexivity|].
    repeat split; reflexivity. }
  split; [exact Hpre|]. split; [reflexivity|]. split; [reflexivity|].
  split; [discriminate|].
  exact (C5_decoded_lead_length Examples.standard_signal Examples.two_lead_waveforms
           ["I"; "II"] 500 6 Examples.twelve_values Examples.one_to_twelve
           Hpre eq_refl eq_refl ltac:(discriminate)).
Defined.

(** C5, as stated, fails on a successfully decoded file: one second at
    500 Hz is declared, the payload holds two samples, and the six leads
    come back with 2, 0, 0, 0, 0 and 0 samples instead of 500. *)
Lemma C5_short_payload_counterexample :
  ∃ file,
    read_file Examples.short_payload false = Ok file ∧
    (λ l, (lead_duration l, lead_sampling_freq l, array_len (lead_samples l))) <$> leads file
      = [(1000, 500, 2%nat); (1000, 500, 0%nat); (1000, 500, 0%nat);
         (1000, 500, 0%nat); (1000, 500, 0%nat); (1000, 500, 0%nat)] ∧
    (1000 * 500) `div` 1000 = 500.
Proof. eexists. split; [reflexivity|]. split; reflexivity. Qed.

(** The sample count is a double-precision product: for 100 ms at 290 Hz
    it is 28, one less than [floor(100 * 290 / 1000)]. *)
Lemma sample_count_rounds_down :
  compute_sample_count 100 290 = Ok 28 ∧ (100 * 290) `div` 1000 = 29.
Proof. split; reflexivity. Qed.

Lemma sample_count_standard_rate :
  compute_sample_count 10000 500 = Ok 5000 ∧ (10000 * 500) `div` 1000 = 5000.
Proof. split; reflexivity. Qed.

(** ** 16-bit arithmetic *)

Lemma wrap16_range (z : Z) : int16 (wrap16 z).
Proof. unfold int16, wrap16. pose proof (Z.mod_pos_bound (z + 32768) 65536). lia. Qed.

Lemma wrap16_small (z : Z) : int16 z → wrap16 z = z.
Proof. unfold int16, wrap16. intros Hz. rewrite Z.mod_small; lia. Qed.

Lemma wrap16_idemp (z : Z) : wrap16 (wrap16 z) = wrap16 z.
Proof. apply wrap16_small, wrap16_range. Qed.

Lemma wrap16_add_l (x y : Z) : wrap16 (wrap16 x + y) = wrap16 (x + y).
Proof.
  unfold wrap16.
  replace ((x + 32768) `mod` 65536 - 32768 + y + 32768)
    with ((x + 32768) `mod` 65536 + y) by lia.
  rewrite Zplus_mod_idemp_l. do 2 f_equal. lia.
Qed.

Lemma wrap16_sub_l (x y : Z) : wrap16 (wrap16 x - y) = wrap16 (x - y).
Proof. unfold Z.sub. apply wrap16_add_l. Qed.

Lemma floor_half_floor (x : Z) : 2 * floor_half x <= x < 2 * floor_half x + 2.
Proof. unfold floor_half. pose proof (Z.div_mod x 2). pose proof (Z.mod_pos_bound x 2). lia. Qed.

Lemma floor_half_minus_one : floor_half (-1) = -1 ∧ Z.quot (-1) 2 = 0.
Proof. split; reflexivity. Qed.

(** ** The correction loops *)

Section Derivation.
Context `{host : Host}.

Lemma setitem_writeable (t : ndarray) (i : nat) (c v : Z) :
  writeable t = true → items t !! i = Some c →
  setitem t i v = Ok (mk_ndarray true (<[i := wrap16 v]> (items t))).
Proof.
  intros Hw Hc. unfold setitem. rewrite Hw. cbn.
  apply lookup_lt_Some in Hc. by rewrite decide_True.
Qed.

Lemma correct_iii_step (lead_i lead_ii t : ndarray) (i : nat) (a b c : Z) :
  items lead_i !! i = Some a → items lead_ii !! i = Some b → items t !! i = Some c →
  writeable t = true →
  correct_iii lead_i lead_ii i t = Ok (mk_ndarray true (<[i := iii16 a b c]> (items t))).
Proof.
  intros Ha Hb Hc Hw. unfold correct_iii, getitem. rewrite Hb, Ha, Hc. cbn.
  rewrite (setitem_writeable t i c _ Hw Hc). unfold iii16.
  by rewrite wrap16_idemp, wrap16_sub_l.
Qed.

Lemma correct_avr_step (lead_i lead_ii t : ndarray) (i : nat) (a b r : Z) :
  items lead_i !! i = Some a → items lead_ii !! i = Some b → items t !! i = Some r →
  writeable t = true →
  correct_avr lead_i lead_ii i t = Ok (mk_ndarray true (<[i := avr16 a b r]> (items t))).
Proof.
  intros Ha Hb Hr Hw. unfold correct_avr, getitem. rewrite Hr, Ha, Hb. cbn.
  rewrite (setitem_writeable t i r _ Hw Hr). unfold avr16.
  by rewrite wrap16_idemp, wrap16_sub_l.
Qed.

Lemma correct_avl_step (lead_i lead_iii t : ndarray) (i : nat) (a c l : Z) :
  items lead_i !! i = Some a → items lead_iii !! i = Some c → items t !! i = Some l →
  writeable t = true →
  correct_avl lead_i lead_iii i t = Ok (mk_ndarray true (<[i := avl16 a c l]> (items t))).
Proof.
  intros Ha Hc Hl Hw. unfold correct_avl, getitem. rewrite Ha, Hc, Hl. cbn.
  rewrite (setitem_writeable t i l _ Hw Hl). unfold avl16.
  by rewrite wrap16_idemp.
Qed.

Lemma correct_avf_step (lead_ii lead_iii t : ndarray) (i : nat) (b c f : Z) :
  items lead_ii !! i = Some b → items lead_iii !! i = Some c → items t !! i = Some f →
  writeable t = true →
  correct_avf lead_ii lead_iii i t = Ok (mk_ndarray true (<[i := avf16 b c f]> (items t))).
Proof.
  intros Hb Hc Hf Hw. unfold correct_avf, getitem. rewrite Hb, Hc, Hf. cbn.
  rewrite (setitem_writeable t i f _ Hw Hf). unfold avf16.
  by rewrite wrap16_idemp.
Qed.

(** A loop that rewrites its array one index at a time computes an [imap]. *)
Lemma for_range_imap_from (body : nat → ndarray → result ndarray) (f : nat → Z → Z) (l : list Z) :
  (∀ i c t, l !! i = Some c → items t !! i = Some c → writeable t = true →
            body i t = Ok (mk_ndarray true (<[i := f i c]> (items t)))) →
  ∀ (m k : nat) (t : ndarray),
    writeable t = true →
    (k + m = length l)%nat →
    length (items t) = length l →
    (∀ j, (j < k)%nat → items t !! j = f j <$> l !! j) →
    (∀ j, (k ≤ j)%nat → items t !! j = l !! j) →
    for_range body k m t = Ok (mk_ndarray true (imap f l)).
Proof.
  intros Hbody m. induction m as [|m IH]; intros k t Hw Hkm Hlen Hdone Htodo.
  - cbn. destruct t as [w its]. cbn in *. subst w. do 2 f_equal.
    apply list_eq. intros j. rewrite list_lookup_imap.
    destruct (decide (j < k)%nat) as [Hj | Hj]; [by apply Hdone|].
    rewrite Htodo by lia.
    rewrite (lookup_ge_None_2 l j) by lia. done.
  - cbn [for_range].
    destruct (lookup_lt_is_Some_2 l k ltac:(lia)) as [c Hc].
    rewrite (Hbody k c t Hc) by (by rewrite ?Htodo). cbn.
    apply IH; cbn.
    + done.
    + lia.
    + by rewrite length_insert.
    + intros j Hj. destruct (decide (j = k)) as [-> | Hne].
      * rewrite list_lookup_insert_eq by lia. by rewrite Hc.
      * rewrite list_lookup_insert_ne by done. apply Hdone. lia.
    + intros j Hj. rewrite list_lookup_insert_ne by lia. apply Htodo. lia.
Qed.

Lemma for_range_pointwise (body : nat → ndarray → result ndarray)
    (g : Z → Z → Z → Z) (xs ys : ndarray) (t : ndarray) :
  writeable t = true →
  (array_len t ≤ array_len xs)%nat →
  (array_len t ≤ array_len ys)%nat →
  (∀ i a b c t', items xs !! i = Some a → items ys !! i = Some b → items t' !! i = Some c →
                 writeable t' = true →
                 body i t' = Ok (mk_ndarray true (<[i := g a b c]> (items t')))) →
  for_range body 0 (array_len t) t = Ok (mk_ndarray true (pointwise g (items xs) (items ys) (items t))).
Proof.
  intros Hw Hx Hy Hbody. unfold pointwise, array_len in *.
  apply for_range_imap_from; try done; [|intros j Hj; lia].
  intros i c t' Hc Hc' Hw'.
  pose proof (lookup_lt_Some _ _ _ Hc) as Hi.
  destruct (lookup_lt_is_Some_2 (items xs) i ltac:(lia)) as [a Ha].
  destruct (lookup_lt_is_Some_2 (items ys) i ltac:(lia)) as [b Hb].
  rewrite (Hbody i a b c t' Ha Hb Hc' Hw').
  by rewrite (list_lookup_total_correct _ _ _ Ha), (list_lookup_total_correct _ _ _ Hb).
Qed.

Lemma length_pointwise g xs ys zs : length (pointwise g xs ys zs) = length zs.
Proof. unfold pointwise. apply length_imap. Qed.

Lemma lookup_pointwise g xs ys zs i a b c :
  xs !! i = Some a → ys !! i = Some b → zs !! i = Some c →
  pointwise g xs ys zs !! i = Some (g a b c).
Proof.
  intros Ha Hb Hc. unfold pointwise. rewrite list_lookup_imap, Hc. cbn.
  by rewrite (list_lookup_total_correct _ _ _ Ha), (list_lookup_total_correct _ _ _ Hb).
Qed.

End Derivation.

(** ** Augmented leads *)

Section AugmentedLeads.
Context `{host : Host}.

Lemma corrections_exact (a b c r l f : Z) :
  (int16 (exact_iii a b c) → iii16 a b c = exact_iii a b c) ∧
  (int16 (a + b) → int16 (exact_avr a b r) → avr16 a b r = exact_avr a b r) ∧
  (int16 (a - c) → int16 (exact_avl a c l) → avl16 a c l = exact_avl a c l) ∧
  (int16 (b + c) → int16 (exact_avf b c f) → avf16 b c f = exact_avf b c f).
Proof.
  unfold iii16, avr16, avl16, avf16, exact_iii, exact_avr, exact_avl, exact_avf.
  repeat split; intros; rewrite ?(wrap16_small (a + b)), ?(wrap16_small (a - c)),
    ?(wrap16_small (b + c)) by done; by apply wrap16_small.
Qed.

(** C1, as amended. With six leads of one common length whose arrays III,
    aVR, aVL and aVF accept writes, the reader rewrites them sample by
    sample, in the order III, aVR, aVL, aVF, on 16-bit integers: every
    sum, difference and negation is reduced to the signed 16-bit range,
    aVL and aVF read the corrected III, and the halving is a floor
    division. Whenever the exact values fit in 16 bits the results are
    the exact integer formulas. Leads I and II are left as they were. *)
Theorem C1_augmented_leads_16bit (leads : list EcgLead) (l0 l1 l2 l3 l4 l5 : EcgLead) (n : nat) :
  leads !! 0%nat = Some l0 → leads !! 1%nat = Some l1 → leads !! 2%nat = Some l2 →
  leads !! 3%nat = Some l3 → leads !! 4%nat = Some l4 → leads !! 5%nat = Some l5 →
  Forall (λ l, length (samples l) = n) [l0; l1; l2; l3; l4; l5] →
  Forall (λ l, writeable (lead_samples l) = true) [l2; l3; l4; l5] →
  let I := samples l0 in
  let II := samples l1 in
  let III' := pointwise iii16 I II (samples l2) in
  let aVR' := pointwise avr16 I II (samples l3) in
  let aVL' := pointwise avl16 I III' (samples l4) in
  let aVF' := pointwise avf16 II III' (samples l5) in
  derive_leads leads
    = Ok (<[5%nat := with_samples l5 (mk_ndarray true aVF')]>
          (<[4%nat := with_samples l4 (mk_ndarray true aVL')]>
           (<[3%nat := with_samples l3 (mk_ndarray true aVR')]>
            (<[2%nat := with_samples l2 (mk_ndarray true III')]> leads)))) ∧
  (∀ i a b c r l f,
     I !! i = Some a → II !! i = Some b → samples l2 !! i = Some c →
     samples l3 !! i = Some r → samples l4 !! i = Some l → samples l5 !! i = Some f →
     III' !! i = Some (iii16 a b c) ∧
     aVR' !! i = Some (avr16 a b r) ∧
     aVL' !! i = Some (avl16 a (iii16 a b c) l) ∧
     aVF' !! i = Some (avf16 b (iii16 a b c) f)) ∧
  (∀ a b c r l f,
     (int16 (exact_iii a b c) → iii16 a b c = exact_iii a b c) ∧
     (int16 (a + b) → int16 (exact_avr a b r) → avr16 a b r = exact_avr a b r) ∧
     (int16 (a - c) → int16 (exact_avl a c l) → avl16 a c l = exact_avl a c l) ∧
     (int16 (b + c) → int16 (exact_avf b c f) → avf16 b c f = exact_avf b c f)) ∧
  (∀ x, 2 * floor_half x <= x < 2 * floor_half x + 2).
Proof.
  intros H0 H1 H2 H3 H4 H5 Hlen Hw I II III' aVR' aVL' aVF'.
  repeat (apply Forall_cons in Hlen as [? Hlen]).
  repeat (apply Forall_cons in Hw as [? Hw]).
  unfold samples in *.
  split; [|split; [|split]].
  - unfold derive_leads, lead_at. rewrite H0, H1, H2, H3, H4, H5. cbn.
    rewrite (for_range_pointwise _ iii16 (lead_samples l0) (lead_samples l1) (lead_samples l2));
      [cbn | done | unfold array_len; lia | unfold array_len; lia
       | intros; by apply correct_iii_step].
    rewrite (for_range_pointwise _ avr16 (lead_samples l0) (lead_samples l1) (lead_samples l3));
      [cbn | done | unfold array_len; lia | unfold array_len; lia
       | intros; by apply correct_avr_step].
    rewrite (for_range_pointwise _ avl16 (lead_samples l0)
               (mk_ndarray true (pointwise iii16 (items (lead_samples l0))
                                   (items (lead_samples l1)) (items (lead_samples l2))))
               (lead_samples l4));
      [cbn | done | unfold array_len; lia
       | unfold array_len; cbn; rewrite length_pointwise; lia
       | intros; by apply correct_avl_step].
    rewrite (for_range_pointwise _ avf16 (lead_samples l1)
               (mk_ndarray true (pointwise iii16 (items (lead_samples l0))
                                   (items (lead_samples l1)) (items (lead_samples l2))))
               (lead_samples l5));
      [cbn | done | unfold array_len; lia
       | unfold array_len; cbn; rewrite length_pointwise; lia
       | intros; by apply correct_avf_step].
    reflexivity.
  - intros i a b c r l f Ha Hb Hc Hr Hl Hf.
    assert (HIII : III' !! i = Some (iii16 a b c)) by by apply lookup_pointwise.
    split; [done|]. split; [by apply lookup_pointwise|].
    split; by apply lookup_pointwise.
  - apply corrections_exact.
  - apply floor_half_floor.
Qed.

(** Leads that are missing make the reader stop at the first subscript. *)
Lemma derive_leads_short (leads : list EcgLead) :
  (length leads < 6)%nat → derive_leads leads = Err IndexError.
Proof.
  intros Hlen. unfold derive_leads, lead_at.
  do 6 (destruct leads as [|? leads]; [reflexivity|]).
  cbn in Hlen. lia.
Qed.

End AugmentedLeads.

(** C1 at the leads I=[2], II=[4], III=[1], aVR=[0], aVL=[0], aVF=[0]:
    the corrected leads are III=[1], aVR=[-3], aVL=[0], aVF=[2]. *)
Lemma C1_augmented_leads_16bit_witness :
  Forall (λ l, length (samples l) = 1%nat) Examples.textbook_leads ∧
  Forall (λ l, writeable (lead_samples l) = true) (drop 2 Examples.textbook_leads) ∧
  derive_leads Examples.textbook_leads = Ok (Examples.six_leads [2] [4] [1] [-3] [0] [2]).
Proof.
  assert (Hlen : Forall (λ l, length (samples l) = 1%nat) Examples.textbook_leads)
    by (repeat constructor).
  assert (Hw : Forall (λ l, writeable (lead_samples l) = true) (drop 2 Examples.textbook_leads))
    by (repeat constructor).
  split; [exact Hlen|]. split; [exact Hw|].
  exact (proj1 (C1_augmented_leads_16bit Examples.textbook_leads
                  (Examples.lead "I" [2]) (Examples.lead "II" [4]) (Examples.lead "III" [1])
                  (Examples.lead "aVR" [0]) (Examples.lead "aVL" [0]) (Examples.lead "aVF" [0])
                  1 eq_refl eq_refl eq_refl eq_refl eq_refl eq_refl Hlen Hw)).
Defined.

(** C1, as stated, fails: with I=[-20000] and II=[20000] the exact
    difference II - I - III is 40000, and the reader stores -25536. *)
Lemma C1_exact_arithmetic_counterexample :
  Forall (λ l, Forall int16 (samples l)) Examples.overflow_leads ∧
  Examples.samples_of (derive_leads Examples.overflow_leads)
    = [[-20000]; [20000]; [-25536]; [0]; [2768]; [-2768]] ∧
  exact_iii (-20000) 20000 0 = 40000 ∧
  40000 ≠ -25536.
Proof.
  split; [|split; [reflexivity | split; [reflexivity | discriminate]]].
  repeat constructor; cbn; lia.
Qed.

(** ** The reader and the number of leads *)

Section SixLeads.
Context `{host : Host}.

Lemma read_file_after_leads (xdom root : node) (t v : string)
    (leads0 : list EcgLead) (labels : list string) (include_repbeats : bool) :
  get_node xdom "restingecgdata" = Ok root →
  assert_version root = Ok (t, v) →
  assert_leads root = Ok (leads0, labels) →
  read_file xdom include_repbeats =
    (leads' ← derive_leads leads0;
     repbeats ← (if include_repbeats then assert_reps root else Ok ∅);
     Ok (mk_SierraEcgFile _ t v leads' repbeats)).
Proof.
  intros Hroot Hver Hleads. unfold read_file.
  rewrite Hroot. cbn. rewrite Hver. cbn. rewrite Hleads. reflexivity.
Qed.

Lemma derive_leads_shape (leads0 leads' : list EcgLead) :
  derive_leads leads0 = Ok leads' →
  ∃ l2 l3 l4 l5 a2 a3 a4 a5,
    leads' = <[5%nat := with_samples l5 a5]>
             (<[4%nat := with_samples l4 a4]>
              (<[3%nat := with_samples l3 a3]>
               (<[2%nat := with_samples l2 a2]> leads0))) ∧
    leads0 !! 2%nat = Some l2 ∧ leads0 !! 3%nat = Some l3 ∧
    leads0 !! 4%nat = Some l4 ∧ leads0 !! 5%nat = Some l5.
Proof.
  unfold derive_leads, lead_at. intros H.
  do 6 (let x := fresh "l" in let Hx := fresh "Hl" in
        apply bind_Ok in H; destruct H as (x & Hx & H);
        apply raise_if_none_Ok in Hx).
  do 4 (let x := fresh "arr" in let Hx := fresh "Harr" in
        apply bind_Ok in H; destruct H as (x & Hx & H)).
  injection H as <-.
  eexists _, _, _, _, _, _, _, _. split; [reflexivity|]. by repeat split.
Qed.

Lemma with_samples_label (l : EcgLead) (a : ndarray) :
  lead_label (with_samples l a) = lead_label l.
Proof. reflexivity. Qed.

Lemma derive_leads_frame (leads0 leads' : list EcgLead) :
  derive_leads leads0 = Ok leads' →
  length leads' = length leads0 ∧
  (∀ k, (k < 2 ∨ 6 ≤ k)%nat → leads' !! k = leads0 !! k) ∧
  lead_label <$> leads' = lead_label <$> leads0.
Proof.
  intros H. apply derive_leads_shape in H
    as (l2 & l3 & l4 & l5 & a2 & a3 & a4 & a5 & -> & H2 & H3 & H4 & H5).
  split; [by rewrite !length_insert|]. split.
  - intros k Hk. rewrite !list_lookup_insert_ne by lia. done.
  - rewrite !list_fmap_insert, !with_samples_label.
    rewrite (list_insert_id _ 2%nat) by (by rewrite list_lookup_fmap, H2).
    rewrite (list_insert_id _ 3%nat) by (by rewrite list_lookup_fmap, H3).
    rewrite (list_insert_id _ 4%nat) by (by rewrite list_lookup_fmap, H4).
    rewrite (list_insert_id _ 5%nat) by (by rewrite list_lookup_fmap, H5).
    done.
Qed.

(** Only the first six leads take part in the corrections. *)
Lemma derive_leads_first_six (leads0 : list EcgLead) :
  derive_leads leads0 = (λ first, first ++ drop 6 leads0) <$> derive_leads (take 6 leads0).
Proof.
  destruct (decide (length leads0 < 6)%nat) as [Hshort | Hlong].
  - rewrite (derive_leads_short leads0 Hshort).
    rewrite (derive_leads_short (take 6 leads0)) by (rewrite length_take; lia). done.
  - do 6 (destruct leads0 as [|? leads0]; [cbn in Hlong; lia|]).
    unfold derive_leads, lead_at. cbn.
    repeat match goal with
           | |- context [for_range ?b ?i ?n ?t] =>
               destruct (for_range b i n t); cbn; [|reflexivity]
           end.
    reflexivity.
Qed.

(** C4, as amended. The corrections are unconditional: a document whose
    lead resolution yields fewer than six leads makes [read_file] fail on
    a list subscript. With six leads or more the result has as many leads
    as were decoded, with their labels, and the leads at positions 0, 1
    and 6 onwards unchanged; the corrections of the whole list are the
    corrections of its first six leads followed by the rest. *)
Theorem C4_derivation_needs_six_leads (xdom root : node) (t v : string)
    (leads0 : list EcgLead) (labels : list string) (include_repbeats : bool) :
  get_node xdom "restingecgdata" = Ok root →
  assert_version root = Ok (t, v) →
  assert_leads root = Ok (leads0, labels) →
  ((length leads0 < 6)%nat → read_file xdom include_repbeats = Err IndexError) ∧
  ((6 ≤ length leads0)%nat → ∀ file,
     read_file xdom include_repbeats = Ok file →
     length (leads file) = length leads0 ∧
     (∀ k, (k < 2 ∨ 6 ≤ k)%nat → leads file !! k = leads0 !! k) ∧
     lead_label <$> leads file = lead_label <$> leads0) ∧
  derive_leads leads0 = (λ first, first ++ drop 6 leads0) <$> derive_leads (take 6 leads0).
Proof.
  intros Hroot Hver Hleads.
  rewrite (read_file_after_leads _ _ _ _ _ _ _ Hroot Hver Hleads).
  split; [|split].
  - intros Hshort. by rewrite (derive_leads_short leads0 Hshort).
  - intros _ file H. bind_inv H. bind_inv H. injection H as <-. cbn.
    by apply derive_leads_frame.
  - apply derive_leads_first_six.
Qed.

End SixLeads.

(** C4 at a document with three labelled leads: the reader fails. *)
Lemma C4_derivation_needs_six_leads_witness :
  ∃ root leads0 labels,
    get_node Examples.three_leads "restingecgdata" = Ok root ∧
    assert_version root = Ok ("SierraECG", "1.03") ∧
    assert_leads root = Ok (leads0, labels) ∧
    labels = ["I"; "II"; "III"] ∧
    read_file Examples.three_leads true = Err IndexError.
Proof.
  eexists _, _, _.
  split; [reflexivity|]. split; [reflexivity|]. split; [reflexivity|]. split; [reflexivity|].
  eapply (C4_derivation_needs_six_leads Examples.three_leads); try reflexivity.
  cbn. lia.
Defined.

(** C4, as stated, fails: two channels are decoded, with two samples each,
    and the reader raises instead of returning them. *)
Lemma C4_two_channels_counterexample :
  ∃ root leads0 labels,
    get_node Examples.two_channels "restingecgdata" = Ok root ∧
    assert_leads root = Ok (leads0, labels) ∧
    labels = ["Channel 1"; "Channel 2"] ∧
    samples <$> leads0 = [[1; 2]; [3; 4]] ∧
    read_file Examples.two_channels false = Err IndexError.
Proof.
  eexists _, _, _.
  split; [reflexivity|]. split; [reflexivity|]. repeat split; reflexivity.
Qed.

(** ** Representative beats *)

Section RepresentativeBeats.
Context `{host : Host}.

Lemma read_repbeat_label (encoding : string) (samplingrate : Z) (resolution : pyfloat)
    (method : string) (item : node) (beat : EcgRepbeat) :
  read_repbeat encoding samplingrate resolution method item = Ok beat →
  attr item "leadname" = Some (rb_label beat).
Proof.
  unfold read_repbeat. intros H.
  apply bind_Ok in H as (name & Hname & H). apply get_attr_required in Hname.
  destruct (get_opt_node item "waveform");
    do 3 bind_inv H; by injection H as <-.
Qed.

Lemma repbeats_loop_app (encoding : string) (samplingrate : Z) (resolution : pyfloat)
    (method : string) (pre post : list node) (m0 : gmap string EcgRepbeat) :
  repbeats_loop encoding samplingrate resolution method (pre ++ post) m0
  = (m1 ← repbeats_loop encoding samplingrate resolution method pre m0;
     repbeats_loop encoding samplingrate resolution method post m1).
Proof.
  revert m0. induction pre as [|item pre IH]; intros m0; [done|].
  cbn. destruct (read_repbeat _ _ _ _ item); cbn; [apply IH | done].
Qed.

(** Entries for other leads leave the beat stored for [name] alone. *)
Lemma repbeats_loop_other (encoding : string) (samplingrate : Z) (resolution : pyfloat)
    (method : string) (post : list node) (m1 m : gmap string EcgRepbeat) (name : string) :
  repbeats_loop encoding samplingrate resolution method post m1 = Ok m →
  Forall (λ item, attr item "leadname" ≠ Some name) post →
  m !! name = m1 !! name.
Proof.
  revert m1. induction post as [|item post IH]; intros m1 H Hpost.
  - by injection H as <-.
  - cbn in H. bind_inv H. apply Forall_cons in Hpost as [Hitem Hpost].
    rewrite (IH _ H Hpost). apply lookup_insert_ne.
    intros E. apply Hitem. rewrite <- E. by eapply read_repbeat_label.
Qed.

Lemma assert_reps_container (elt container : node) (m : gmap string EcgRepbeat) :
  get_opt_node elt "repbeats" = Some container →
  assert_reps elt = Ok m →
  ∃ encoding samplingrate resolution method,
    attr container "dataencoding" = Some encoding ∧
    repbeats_loop encoding samplingrate resolution method (get_nodes container "repbeat") ∅ = Ok m.
Proof.
  intros Hc H. unfold assert_reps in H. rewrite Hc in H.
  apply bind_Ok in H as (encoding & Henc & H).
  do 5 bind_inv H.
  exists encoding, a0, a2, a3. split; [|done].
  by apply get_attr_required.
Qed.

(** C8. When beats are requested and the document has no [repbeats]
    element, the extraction returns the empty mapping and requesting the
    beats changes nothing in the outcome of [read_file]. When the element
    is there, the beat read from an entry is stored under the entry's
    [leadname], and an entry that no later entry shares its [leadname]
    with is the one found under that name: of two entries with one name
    the later stays. *)
Theorem C8_representative_beats (xdom elt : node) :
  (get_opt_node elt "repbeats" = None → assert_reps elt = Ok ∅) ∧
  (get_node xdom "restingecgdata" = Ok elt → get_opt_node elt "repbeats" = None →
     read_file xdom true = read_file xdom false) ∧
  (∀ container m pre item post name,
     get_opt_node elt "repbeats" = Some container →
     get_nodes container "repbeat" = pre ++ item :: post →
     assert_reps elt = Ok m →
     attr item "leadname" = Some name →
     Forall (λ later, attr later "leadname" ≠ Some name) post →
     ∃ encoding samplingrate resolution method beat,
       attr container "dataencoding" = Some encoding ∧
       read_repbeat encoding samplingrate resolution method item = Ok beat ∧
       rb_label beat = name ∧
       m !! name = Some beat).
Proof.
  split; [|split].
  - intros Hnone. unfold assert_reps. by rewrite Hnone.
  - intros Hroot Hnone. unfold read_file. rewrite Hroot. cbn.
    destruct (assert_version elt) as [[t v]|]; [cbn|done].
    destruct (assert_leads elt) as [[leads0 labels]|]; [cbn|done].
    destruct (derive_leads leads0); [cbn|done].
    unfold assert_reps. by rewrite Hnone.
  - intros container m pre item post name Hc Hitems H Hname Hpost.
    destruct (assert_reps_container elt container m Hc H)
      as (encoding & samplingrate & resolution & method & Henc & Hloop).
    rewrite Hitems, repbeats_loop_app in Hloop.
    apply bind_Ok in Hloop as (m1 & _ & Hloop).
    cbn in Hloop. apply bind_Ok in Hloop as (beat & Hbeat & Hloop).
    pose proof (read_repbeat_label _ _ _ _ _ _ Hbeat) as Hlabel.
    rewrite Hname in Hlabel. injection Hlabel as Hlabel.
    exists encoding, samplingrate, resolution, method, beat.
    split; [done|]. split; [done|]. split; [done|].
    rewrite (repbeats_loop_other _ _ _ _ _ _ _ name Hloop Hpost).
    rewrite <- Hlabel. apply lookup_insert_eq.
Qed.

(** C10. With a [dataencoding] other than "Base64" on the container (and
    the optional numeric attributes readable), a container without
    [repbeat] entries gives the empty mapping; the encoding is refused
    only when an entry is processed, after its [leadname] and [duration]
    have been read. *)
Theorem C10_encoding_checked_per_beat (elt container : node) (encoding : string)
    (samplingrate : Z) (resolution : pyfloat) :
  get_opt_node elt "repbeats" = Some container →
  attr container "dataencoding" = Some encoding →
  encoding ≠ "Base64" →
  Py.int (default "0" (attr container "samplespersec")) = Ok samplingrate →
  float_of_str (default "0" (attr container "resolution")) = Some resolution →
  (get_nodes container "repbeat" = [] → assert_reps elt = Ok ∅) ∧
  (∀ item rest name a_dur duration,
     get_nodes container "repbeat" = item :: rest →
     attr item "leadname" = Some name →
     beat_duration_attr item = Some a_dur →
     Py.int a_dur = Ok duration →
     assert_reps elt = Err (UnsupportedXmlFileError (beat_encoding_message encoding))).
Proof.
  intros Hc Henc Hne Hrate Hres.
  assert (Hrun : assert_reps elt =
            repbeats_loop encoding samplingrate resolution
              (default "" (attr container "repbeatmethod")) (get_nodes container "repbeat") ∅).
  { unfold assert_reps. rewrite Hc. cbv beta iota.
    rewrite (get_attr_present _ _ _ _ Henc), bind_of_Ok.
    rewrite (get_attr_with_default container "samplespersec"), bind_of_Ok, Hrate, bind_of_Ok.
    rewrite (get_attr_with_default container "resolution"), bind_of_Ok, Hres.
    unfold raise_if_none.
    rewrite bind_of_Ok, (get_attr_with_default container "repbeatmethod"). reflexivity. }
  rewrite Hrun. split.
  - intros ->. reflexivity.
  - intros item rest name a_dur duration -> Hname Hdur Hint.
    cbn. unfold read_repbeat. rewrite (get_attr_present _ _ _ _ Hname). cbn.
    unfold beat_duration_attr in Hdur.
    assert (Hbad : decode_beat_samples encoding (get_text item)
                   = Err (UnsupportedXmlFileError (beat_encoding_message encoding)) ∧
                   ∀ w, decode_beat_samples encoding (get_text w)
                   = Err (UnsupportedXmlFileError (beat_encoding_message encoding))).
    { unfold decode_beat_samples.
      destruct (String.eqb encoding "Base64") eqn:E; [by apply String.eqb_eq in E|]. done. }
    destruct Hbad as [_ Hbad].
    destruct (get_opt_node item "waveform") as [waveform|];
      rewrite (get_attr_present _ _ _ _ Hdur); cbn; rewrite Hint; cbn;
      by rewrite Hbad.
Qed.

End RepresentativeBeats.

(** C8 at a container with the entries I (300 ms), II, I (400 ms): the beat
    stored for lead I is the later one. *)
Lemma C8_representative_beats_witness :
  ∃ m beat,
    get_opt_node (Examples.root_of Examples.with_beats) "repbeats"
      = Some Examples.beats_container ∧
    get_nodes Examples.beats_container "repbeat"
      = [Examples.beat "I" "300" "AQACAA=="; Examples.beat "II" "350" ""]
        ++ Examples.beat "I" "400" "AwAEAA==" :: [] ∧
    assert_reps (Examples.root_of Examples.with_beats) = Ok m ∧
    m !! "I" = Some beat ∧
    rb_duration beat = 400 ∧
    items (rb_samples beat) = [3; 4].
Proof.
  assert (Hrun : ∃ m, assert_reps (Examples.root_of Examples.with_beats) = Ok m)
    by (eexists; reflexivity).
  destruct Hrun as [m Hrun].
  destruct (proj2 (proj2 (C8_representative_beats Examples.with_beats
                            (Examples.root_of Examples.with_beats)))
              Examples.beats_container m
              [Examples.beat "I" "300" "AQACAA=="; Examples.beat "II" "350" ""]
              (Examples.beat "I" "400" "AwAEAA==") [] "I"
              eq_refl eq_refl Hrun eq_refl (Forall_nil_2 _))
    as (encoding & samplingrate & resolution & method & beat & Henc & Hbeat & Hlabel & Hm).
  exists m, beat.
  split; [reflexivity|]. split; [reflexivity|]. split; [exact Hrun|].
  split; [exact Hm|].
  injection Henc as <-.
  injection Hbeat as <-. split; reflexivity.
Defined.

(** C10 at an empty container that declares the encoding "Hex". *)
Lemma C10_encoding_checked_per_beat_witness :
  get_opt_node Examples.hex_root "repbeats" = Some (Examples.hex_container []) ∧
  attr (Examples.hex_container []) "dataencoding" = Some "Hex" ∧
  "Hex" ≠ "Base64" ∧
  Py.int (default "0" (attr (Examples.hex_container []) "samplespersec")) = Ok 0 ∧
  float_of_str (default "0" (attr (Examples.hex_container []) "resolution")) = Some 0 ∧
  get_nodes (Examples.hex_container []) "repbeat" = [] ∧
  assert_reps Examples.hex_root = Ok ∅.
Proof.
  split; [reflexivity|]. split; [reflexivity|]. split; [discriminate|].
  split; [reflexivity|]. split; [reflexivity|]. split; [reflexivity|].
  exact (proj1 (C10_encoding_checked_per_beat Examples.hex_root (Examples.hex_container [])
                  "Hex" 0 0 eq_refl eq_refl ltac:(discriminate) eq_refl eq_refl) eq_refl).
Defined.

(** The same container with one entry: the encoding is refused there. *)
Lemma hex_entry_refused :
  assert_reps (Element "restingecgdata" []
                 [Examples.hex_container [Examples.beat "I" "300" "0102"]])
    = Err (UnsupportedXmlFileError "Representative beat waveform data encoding unsupported: Hex").
Proof. reflexivity. Qed.

(** ** Ownership of the containers of a result *)

Section Ownership.
Context `{host : Host}.

Lemma objects_read_file_inv (cls : Objects.class_object) (xdom : node) (include_repbeats : bool)
    (σ σ' : Objects.store) (o : Objects.instance) :
  Objects.read_file cls xdom include_repbeats σ = Ok (o, σ') →
  ∃ file,
    read_file xdom include_repbeats = Ok file ∧
    Objects.own_doc_type o = Some (doc_type file) ∧
    Objects.own_doc_ver o = Some (doc_ver file) ∧
    Objects.own_leads o = Some (Objects.next_loc σ) ∧
    Objects.list_at (Objects.next_loc σ) σ' = Some (leads file) ∧
    (if include_repbeats
     then Objects.own_repbeats o = Some (S (Objects.next_loc σ)) ∧
          Objects.dict_at (S (Objects.next_loc σ)) σ' = Some (repbeats file) ∧
          Objects.next_loc σ' = S (S (Objects.next_loc σ))
     else Objects.own_repbeats o = None ∧
          Objects.next_loc σ' = S (Objects.next_loc σ)) ∧
    (∀ l, (l < Objects.next_loc σ)%nat → Objects.cells σ' !! l = Objects.cells σ !! l).
Proof.
  unfold Objects.read_file, read_file. intros H.
  apply bind_Ok in H as (root & -> & H). rewrite bind_of_Ok.
  apply bind_Ok in H as ([t v] & -> & H). rewrite bind_of_Ok.
  apply bind_Ok in H as ([leads0 labels] & -> & H). rewrite bind_of_Ok.
  apply bind_Ok in H as (leads' & -> & H). rewrite bind_of_Ok.
  destruct include_repbeats.
  - cbn in H. apply bind_Ok in H as (beats & -> & H). rewrite bind_of_Ok.
    injection H as <- <-. eexists. split; [reflexivity|]. cbn.
    unfold Objects.list_at, Objects.dict_at. cbn.
    rewrite lookup_insert_eq, lookup_insert_ne, lookup_insert_eq by lia.
    repeat split; try done.
    intros l Hl. by rewrite !lookup_insert_ne by lia.
  - cbn in H. injection H as <- <-. eexists. split; [reflexivity|]. cbn.
    unfold Objects.list_at. cbn. rewrite lookup_insert_eq.
    repeat split; try done.
    intros l Hl. by rewrite lookup_insert_ne by lia.
Qed.

(** When the beats are requested the result holds a dictionary of its own. *)
Lemma requested_beats_are_owned (cls : Objects.class_object) (xdom : node)
    (σ σ' : Objects.store) (o : Objects.instance) :
  (Objects.cls_repbeats cls < Objects.next_loc σ)%nat →
  Objects.read_file cls xdom true σ = Ok (o, σ') →
  Objects.attr_repbeats cls o ≠ Objects.cls_repbeats cls.
Proof.
  intros Hcls H. apply objects_read_file_inv in H as (file & _ & _ & _ & _ & _ & (Hown & _) & _).
  unfold Objects.attr_repbeats. rewrite Hown. cbn. lia.
Qed.

Lemma dict_setitem_read (l : Objects.loc) (key : string) (beat : EcgRepbeat)
    (σ : Objects.store) (d : gmap string EcgRepbeat) :
  Objects.dict_at l σ = Some d →
  Objects.dict_at l (Objects.dict_setitem l key beat σ) = Some (<[key := beat]> d).
Proof.
  unfold Objects.dict_at, Objects.dict_setitem. intros H.
  destruct (Objects.cells σ !! l) as [[|d']|] eqn:E; try discriminate.
  injection H as ->. cbn. by rewrite lookup_insert_eq.
Qed.

(** C9 on the code. Two calls without representative beats, one after the
    other, return results whose [repbeats] attribute is one and the same
    object, the dictionary created by the class statement: an entry
    written through the first result is read through the second. Their
    [leads] lists are two different objects. *)
Theorem C9_class_level_repbeats_shared (cls : Objects.class_object) (xdom1 xdom2 : node)
    (σ0 σ1 σ2 : Objects.store) (o1 o2 : Objects.instance)
    (d : gmap string EcgRepbeat) (key : string) (beat : EcgRepbeat) :
  (Objects.cls_repbeats cls < Objects.next_loc σ0)%nat →
  Objects.dict_at (Objects.cls_repbeats cls) σ0 = Some d →
  Objects.read_file cls xdom1 false σ0 = Ok (o1, σ1) →
  Objects.read_file cls xdom2 false σ1 = Ok (o2, σ2) →
  Objects.attr_repbeats cls o1 = Objects.cls_repbeats cls ∧
  Objects.attr_repbeats cls o2 = Objects.cls_repbeats cls ∧
  Objects.dict_at (Objects.attr_repbeats cls o2)
    (Objects.dict_setitem (Objects.attr_repbeats cls o1) key beat σ2)
    = Some (<[key := beat]> d) ∧
  Objects.attr_leads cls o1 ≠ Objects.attr_leads cls o2.
Proof.
  intros Hcls Hd H1 H2.
  apply objects_read_file_inv in H1
    as (f1 & _ & _ & _ & Hl1 & _ & (Hown1 & Hnext1) & Hkeep1).
  apply objects_read_file_inv in H2
    as (f2 & _ & _ & _ & Hl2 & _ & (Hown2 & Hnext2) & Hkeep2).
  unfold Objects.attr_repbeats, Objects.attr_leads.
  rewrite Hown1, Hown2, Hl1, Hl2. cbn.
  split; [done|]. split; [done|]. split; [|lia].
  apply dict_setitem_read. unfold Objects.dict_at in *.
  rewrite Hkeep2 by lia. by rewrite Hkeep1 by lia.
Qed.

End Ownership.

(** C9 at two reads of the same six-lead document, right after the module
    has been imported. *)
Lemma C9_class_level_repbeats_shared_witness :
  ∃ o1 σ1 o2 σ2,
    (Objects.cls_repbeats Examples.imported_class < Objects.next_loc Examples.imported_store)%nat ∧
    Objects.dict_at (Objects.cls_repbeats Examples.imported_class) Examples.imported_store
      = Some ∅ ∧
    Objects.read_file Examples.imported_class Examples.six_by_codec false Examples.imported_store
      = Ok (o1, σ1) ∧
    Objects.read_file Examples.imported_class Examples.six_by_codec false σ1 = Ok (o2, σ2) ∧
    Objects.attr_repbeats Examples.imported_class o1
      = Objects.attr_repbeats Examples.imported_class o2 ∧
    Objects.attr_leads Examples.imported_class o1 ≠ Objects.attr_leads Examples.imported_class o2.
Proof.
  assert (H1 : ∃ o1 σ1, Objects.read_file Examples.imported_class Examples.six_by_codec false
                          Examples.imported_store = Ok (o1, σ1))
    by (eexists _, _; reflexivity).
  destruct H1 as (o1 & σ1 & H1).
  assert (H2 : ∃ o2 σ2, Objects.read_file Examples.imported_class Examples.six_by_codec false σ1
                        = Ok (o2, σ2))
    by (eexists _, _; reflexivity).
  destruct H2 as (o2 & σ2 & H2).
  assert (Hcls : (Objects.cls_repbeats Examples.imported_class
                  < Objects.next_loc Examples.imported_store)%nat) by (cbn; lia).
  assert (Hd : Objects.dict_at (Objects.cls_repbeats Examples.imported_class)
                 Examples.imported_store = Some ∅) by reflexivity.
  pose (beat := mk_EcgRepbeat _ "I" 0 0 (0 : pyfloat) "" (mk_ndarray true [])).
  destruct (C9_class_level_repbeats_shared Examples.imported_class
              Examples.six_by_codec Examples.six_by_codec
              Examples.imported_store σ1 σ2 o1 o2 ∅ "I" beat Hcls Hd H1 H2)
    as (E1 & E2 & _ & Hne).
  exists o1, σ1, o2, σ2.
  repeat (split; [assumption|]).
  split; [by rewrite E1, E2 | exact Hne].
Defined.

(** * Further properties of the reader *)

(** ** Searching the document *)

Lemma node_induction (P : node → Prop) :
  (∀ t a kids, Forall P kids → P (Element t a kids)) →
  (∀ d, P (TextNode d)) →
  P OtherNode →
  ∀ n, P n.
Proof.
  intros HE HT HO. fix IH 1. intros [t a kids | d |]; [apply HE | apply HT | apply HO].
  induction kids as [|k kids IHk]; constructor; [apply IH | exact IHk].
Qed.


Lemma elem_of_get_nodes (tag_name : string) (t : string) (a : list (string * string))
    (kids : list node) (n : node) :
  n ∈ get_nodes (Element t a kids) tag_name ↔
  ∃ k, k ∈ kids ∧ ((has_tag tag_name k = true ∧ n = k) ∨ n ∈ get_nodes k tag_name).
Proof.
  unfold get_nodes. cbn [getElementsByTagName].
  rewrite list_elem_of_In, in_flat_map. split.
  - intros (k & Hk & Hn). exists k. split; [by apply list_elem_of_In|].
    apply in_app_or in Hn as [Hn | Hn].
    + destruct (has_tag tag_name k); [|done]. left. split; [done|].
      destruct Hn as [-> | []]. done.
    + right. by apply list_elem_of_In.
  - intros (k & Hk & Hn). exists k. split; [by apply list_elem_of_In|].
    apply in_or_app. destruct Hn as [[Htag ->] | Hn].
    + left. rewrite Htag. by left.
    + right. by apply list_elem_of_In.
Qed.


(** X2. A search looks at every depth: what is found below a found node is
    found from the ancestor as well. *)
Theorem get_nodes_transitive (xdoc : node) (tag_name tag_name' : string) (n m : node) :
  n ∈ get_nodes xdoc tag_name →
  m ∈ get_nodes n tag_name' →
  m ∈ get_nodes xdoc tag_name'.
Proof.
  revert n m. induction xdoc as [t a kids IH | d |] using node_induction;
    intros n m Hn Hm; [|by apply elem_of_nil in Hn..].
  apply elem_of_get_nodes in Hn as (k & Hk & Hn).
  apply elem_of_get_nodes. exists k. split; [done|]. right.
  destruct Hn as [[_ ->] | Hn]; [done|].
  rewrite Forall_forall in IH. by apply (IH k Hk n m).
Qed.

Lemma get_nodes_transitive_witness :
  Element "restingecgdata" [("id", "1")]
    [Element "documentinfo" [] [Examples.text_elem "documenttype" "SierraECG"]]
    ∈ get_nodes Cases.nested "restingecgdata" ∧
  Examples.text_elem "documenttype" "SierraECG"
    ∈ get_nodes (Element "restingecgdata" [("id", "1")]
                   [Element "documentinfo" [] [Examples.text_elem "documenttype" "SierraECG"]])
                "documenttype" ∧
  Examples.text_elem "documenttype" "SierraECG" ∈ get_nodes Cases.nested "documenttype".
Proof.
  assert (H1 : Element "restingecgdata" [("id", "1")]
                 [Element "documentinfo" [] [Examples.text_elem "documenttype" "SierraECG"]]
               ∈ get_nodes Cases.nested "restingecgdata") by (cbn; apply list_elem_of_here).
  assert (H2 : Examples.text_elem "documenttype" "SierraECG"
               ∈ get_nodes (Element "restingecgdata" [("id", "1")]
                   [Element "documentinfo" [] [Examples.text_elem "documenttype" "SierraECG"]])
                   "documenttype") by (cbn; apply list_elem_of_here).
  split; [exact H1|]. split; [exact H2|].
  exact (get_nodes_transitive Cases.nested "restingecgdata" "documenttype" _ _ H1 H2).
Defined.


(** ** Buffers and blocks *)

Lemma pair_induction {A} (P : list A → Prop) :
  P [] → (∀ x, P [x]) → (∀ x y l, P l → P (x :: y :: l)) → ∀ l, P l.
Proof.
  intros H0 H1 H2. fix IH 1. intros [|x [|y l]]; [exact H0 | apply H1 | apply H2, IH].
Qed.

Lemma int16_values_spec (data : list Byte.byte) :
  match int16_values data with
  | Some vals => length data = (2 * length vals)%nat ∧ Forall int16 vals
  | None => Nat.Odd (length data)
  end.
Proof.
  induction data as [| x | lo hi rest IH] using pair_induction.
  - cbn. split; [done | constructor].
  - cbn. by exists 0%nat.
  - cbn [int16_values]. destruct (int16_values rest) as [vals|]; cbn.
    + destruct IH as [Hlen Hall]. split; [cbn; lia|].
      constructor; [apply wrap16_range | done].
    + destruct IH as [m Hm]. exists (S m). cbn. lia.
Qed.

Section Buffers.
Context `{host : Host}.

(** X3. A buffer of odd size makes [split_leads] raise [ValueError]
    whatever the geometry; a buffer of even size is always split, into
    read-only arrays whose values lie in the signed 16-bit range. *)
Theorem split_leads_parity (waveform_data : list Byte.byte) (lead_count : nat) (samples : Z) :
  (Nat.Odd (length waveform_data) →
     split_leads waveform_data lead_count samples = Err ValueError) ∧
  (Nat.Even (length waveform_data) →
     ∃ leads, split_leads waveform_data lead_count samples = Ok leads ∧
              Forall (λ a, writeable a = false ∧ Forall int16 (items a)) leads).
Proof.
  pose proof (int16_values_spec waveform_data) as Hspec.
  destruct (int16_values waveform_data) as [vals|] eqn:Hv.
  - destruct Hspec as [Hlen Hall]. split.
    + intros [m Hm]. lia.
    + intros _. unfold split_leads, frombuffer. rewrite Hv. cbn.
      destruct (decide (0 < samples)) as [Hs | Hs].
      * pose proof (split_loop_run (mk_ndarray false vals) samples lead_count 0 [] Hs) as E.
        change (Z.of_nat 0 * samples) with 0 in E.
        change (0 + lead_count)%nat with lead_count in E.
        rewrite E. cbn. eexists. split; [reflexivity|].
        apply Forall_fmap, Forall_forall. intros k _. cbn. split; [done|].
        unfold Py.slice. by apply Forall_take, Forall_drop.
      * exists []. split; [|constructor].
        destruct lead_count; cbn [split_loop];
          replace (0 <? _) with false by (symmetry; apply Z.ltb_ge; nia); done.
  - split.
    + intros _. unfold split_leads, frombuffer. by rewrite Hv.
    + intros [m Hm]. destruct Hspec as [m' Hm']. lia.
Qed.

(** X4. With a positive sample count [split_leads] returns [lead_count]
    leads however short the buffer is: lead [k] holds the values that are
    left from position [k * samples] on, at most [samples] of them, so a
    lead is never longer than the one before it. *)
Theorem split_leads_short_buffer (waveform_data : list Byte.byte) (vals : list Z)
    (lead_count : nat) (samples : Z) :
  int16_values waveform_data = Some vals →
  0 < samples →
  ∃ leads,
    split_leads waveform_data lead_count samples = Ok leads ∧
    length leads = lead_count ∧
    (∀ k a, leads !! k = Some a →
       array_len a = (Z.to_nat samples `min` (length vals - k * Z.to_nat samples))%nat) ∧
    (∀ k a b, leads !! k = Some a → leads !! S k = Some b → (array_len b ≤ array_len a)%nat).
Proof.
  intros Hv Hs.
  destruct (split_leads_blocks waveform_data vals lead_count samples Hv Hs)
    as (leads & Hrun & Hn & Hblock & _).
  assert (Hlen : ∀ k a, leads !! k = Some a →
            array_len a = (Z.to_nat samples `min` (length vals - k * Z.to_nat samples))%nat).
  { intros k a Hk.
    assert (Hklt : (k < lead_count)%nat) by (rewrite <- Hn; by eapply lookup_lt_Some).
    specialize (Hblock k Hklt). rewrite Hk in Hblock. injection Hblock as Hitems.
    unfold array_len. rewrite Hitems. unfold block.
    by rewrite length_take, length_drop. }
  exists leads. repeat split; try done.
  intros k a b Ha Hb. rewrite (Hlen _ _ Ha), (Hlen _ _ Hb). nia.
Qed.

End Buffers.

Lemma split_leads_parity_witness :
  Nat.Odd (length Cases.odd_buffer) ∧
  split_leads Cases.odd_buffer 2 3 = Err ValueError.
Proof.
  assert (Hodd : Nat.Odd (length Cases.odd_buffer)) by (exists 1%nat; reflexivity).
  split; [exact Hodd|].
  exact (proj1 (split_leads_parity Cases.odd_buffer 2 3) Hodd).
Defined.

Lemma split_leads_short_buffer_witness :
  int16_values Cases.four_values = Some [1; 2; 3; 4] ∧
  0 < 3 ∧
  ∃ leads,
    split_leads Cases.four_values 3 3 = Ok leads ∧
    array_len <$> leads = [3%nat; 1%nat; 0%nat].
Proof.
  split; [reflexivity|]. split; [reflexivity|].
  destruct (split_leads_short_buffer Cases.four_values [1; 2; 3; 4] 3 3 eq_refl eq_refl)
    as (leads & Hrun & Hn & Hlen & _).
  exists leads. split; [exact Hrun|].
  destruct leads as [|a [|b [|c [|? ?]]]]; try discriminate Hn.
  cbn [fmap list_fmap].
  rewrite (Hlen 0%nat a eq_refl), (Hlen 1%nat b eq_refl), (Hlen 2%nat c eq_refl).
  reflexivity.
Defined.

(** ** Payload encoding *)

Section Encoding.
Context `{host : Host}.

(** X5. The payload encoding is checked before anything else is decoded:
    a [dataencoding] other than "Base64" raises [UnsupportedXmlFileError]
    naming it, whatever the payload text, the compression attributes and
    the labels are; a missing [dataencoding] raises
    [MissingXmlAttributeError]. *)
Theorem encoding_checked_first (signal_details parsed_waveforms : node) (labels : list string)
    (f d count : Z) :
  geometry_read signal_details parsed_waveforms f d count →
  (∀ encoding,
     attr parsed_waveforms "dataencoding" = Some encoding →
     encoding ≠ "Base64" →
     get_waveform_data signal_details parsed_waveforms labels
       = Err (UnsupportedXmlFileError (encoding_message encoding))) ∧
  (attr parsed_waveforms "dataencoding" = None →
     get_waveform_data signal_details parsed_waveforms labels
       = Err (MissingXmlAttributeError "dataencoding")).
Proof.
  intros ((n_rate & Hrate & Hf) & (a_dur & Hdur & Hd) & Hcount).
  assert (Hrun : get_waveform_data signal_details parsed_waveforms labels =
            (encoding ← get_attr parsed_waveforms "dataencoding" None;
             waveform_data ←
               (if String.eqb encoding "Base64"
                then read_base64_encoding (get_text parsed_waveforms)
                else Err (UnsupportedXmlFileError
                            ("Waveform data encoding unsupported: " +:+ encoding)));
             compression_method ← infer_compression parsed_waveforms;
             if negb (String.eqb compression_method "Uncompressed") then
               if String.eqb compression_method "XLI"
               then raise_if_none CodecError (xli_decode waveform_data labels)
               else Err (UnsupportedXmlFileError
                           ("Waveform data compression algorithm unsupported: "
                            +:+ compression_method))
             else split_leads waveform_data (length labels) count)).
  { unfold get_waveform_data. rewrite Hrate, bind_of_Ok, Hf, bind_of_Ok.
    rewrite (get_attr_present _ _ _ _ Hdur), bind_of_Ok, Hd, bind_of_Ok.
    by rewrite Hcount, bind_of_Ok. }
  rewrite Hrun. split.
  - intros encoding Henc Hne. rewrite (get_attr_present _ _ _ _ Henc), bind_of_Ok.
    destruct (String.eqb encoding "Base64") eqn:E; [by apply String.eqb_eq in E|]. done.
  - intros Hnone. by rewrite (get_attr_missing _ _ Hnone).
Qed.

End Encoding.

Lemma encoding_checked_first_witness :
  geometry_read Examples.standard_signal Cases.hex_waveforms 500 4 2 ∧
  attr Cases.hex_waveforms "dataencoding" = Some "Hex" ∧
  "Hex" ≠ "Base64" ∧
  get_waveform_data Examples.standard_signal Cases.hex_waveforms ["I"; "II"]
    = Err (UnsupportedXmlFileError "Waveform data encoding unsupported: Hex").
Proof.
  assert (Hgeo : geometry_read Examples.standard_signal Cases.hex_waveforms 500 4 2).
  { split; [eexists; split; reflexivity|].
    split; [eexists; split; reflexivity | reflexivity]. }
  split; [exact Hgeo|]. split; [reflexivity|]. split; [discriminate|].
  exact (proj1 (encoding_checked_first Examples.standard_signal Cases.hex_waveforms
                  ["I"; "II"] 500 4 2 Hgeo) "Hex" eq_refl ltac:(discriminate)).
Defined.

(** ** Building the leads *)

Section BuildLeads.
Context `{host : Host}.

Lemma build_leads_enough (f d : Z) (waveform_data : list ndarray) (labels : list string)
    (index : nat) :
  (index + length labels ≤ length waveform_data)%nat →
  ∃ built, build_leads f d waveform_data index labels = Ok built ∧
           length built = length labels ∧
           Forall (λ l, lead_sampling_freq l = f ∧ lead_duration l = d) built.
Proof.
  revert index. induction labels as [|label labels IH]; intros index Hlen.
  - exists []. by repeat split.
  - cbn in Hlen. cbn [build_leads].
    destruct (lookup_lt_is_Some_2 waveform_data index ltac:(lia)) as [arr Harr].
    rewrite Harr. cbn.
    destruct (IH (S index) ltac:(lia)) as (tail & -> & Htail & Hall). cbn.
    eexists. split; [reflexivity|]. split; [cbn; lia|]. by constructor.
Qed.

Lemma build_leads_too_few (f d : Z) (waveform_data : list ndarray) (labels : list string)
    (index : nat) :
  (index ≤ length waveform_data)%nat →
  (length waveform_data < index + length labels)%nat →
  build_leads f d waveform_data index labels = Err IndexError.
Proof.
  revert index. induction labels as [|label labels IH]; intros index Hidx Hlen.
  - cbn in Hlen. lia.
  - cbn in Hlen. cbn [build_leads].
    destruct (waveform_data !! index) as [arr|] eqn:Harr; [|done]. cbn.
    apply lookup_lt_Some in Harr.
    rewrite IH by lia. done.
Qed.

(** X6. The leads are built from the labels: when the decoder hands back
    at least as many sequences as there are labels, there is one lead per
    label, in label order, each with the document's sampling rate and
    duration and the sequence at its position (sequences beyond the last
    label are ignored); with fewer sequences than labels the reader
    raises [IndexError]. *)
Theorem build_leads_count (f d : Z) (waveform_data : list ndarray) (labels : list string) :
  ((length labels ≤ length waveform_data)%nat →
     ∃ built, build_leads f d waveform_data 0 labels = Ok built ∧
              length built = length labels ∧
              lead_label <$> built = labels ∧
              lead_samples <$> built = take (length labels) waveform_data ∧
              Forall (λ l, lead_sampling_freq l = f ∧ lead_duration l = d) built) ∧
  ((length waveform_data < length labels)%nat →
     build_leads f d waveform_data 0 labels = Err IndexError).
Proof.
  split.
  - intros Hlen.
    destruct (build_leads_enough f d waveform_data labels 0 ltac:(lia))
      as (built & Hrun & Hn & Hall).
    destruct (build_leads_pairs _ _ _ _ _ _ Hrun) as [Hlabels Hsamples].
    exists built. repeat split; try done.
    apply list_eq. intros i. rewrite list_lookup_fmap.
    destruct (built !! i) as [l|] eqn:Hi; cbn.
    + rewrite lookup_take_lt by (rewrite <- Hn; by eapply lookup_lt_Some).
      symmetry. by apply (Hsamples i l).
    + symmetry. apply lookup_take_ge. apply lookup_ge_None in Hi. lia.
  - intros Hlen. apply build_leads_too_few; lia.
Qed.

Lemma assert_leads_after_labels (elt signal_details parsed_waveforms : node)
    (f d count : Z) (labels : list string) :
  waveform_elements elt signal_details parsed_waveforms →
  geometry_read signal_details parsed_waveforms f d count →
  get_or_create_labels signal_details parsed_waveforms = Ok labels →
  assert_leads elt =
    (waveform_data ← get_waveform_data signal_details parsed_waveforms labels;
     built ← build_leads f d waveform_data 0 labels;
     Ok (built, labels)).
Proof.
  intros (acq & Hacq & Hsd & Hpw) ((n_rate & Hrate & Hf) & (a_dur & Hdur & Hd) & _) Hlabels.
  unfold assert_leads. rewrite Hacq, bind_of_Ok, Hsd, bind_of_Ok, Hpw, bind_of_Ok.
  rewrite Hrate, bind_of_Ok, Hf, bind_of_Ok.
  rewrite (get_attr_present _ _ _ _ Hdur), bind_of_Ok, Hd, bind_of_Ok.
  by rewrite Hlabels, bind_of_Ok.
Qed.

(** X7. An uncompressed document whose sample count is zero or negative
    (a duration of 0 ms, say) and that has at least one label cannot be
    read: [split_leads] returns no lead at all and [assert_leads] raises
    [IndexError] at the first label. *)
Theorem no_samples_no_leads (elt signal_details parsed_waveforms : node)
    (f d count : Z) (data : list Byte.byte) (labels : list string) :
  waveform_elements elt signal_details parsed_waveforms →
  payload_decoded signal_details parsed_waveforms f d count data →
  declared_compression parsed_waveforms = "Uncompressed" →
  Nat.Even (length data) →
  get_or_create_labels signal_details parsed_waveforms = Ok labels →
  labels ≠ [] →
  count <= 0 →
  assert_leads elt = Err IndexError.
Proof.
  intros Helts Hpre Hu Heven Hlabels Hne Hcount.
  assert (Hgeo : geometry_read signal_details parsed_waveforms f d count).
  { destruct Hpre as (? & ? & ? & _). by repeat split. }
  rewrite (assert_leads_after_labels _ _ _ _ _ _ _ Helts Hgeo Hlabels).
  rewrite (get_waveform_data_dispatch _ _ _ _ _ _ _ Hpre), Hu. cbn - [build_leads].
  pose proof (int16_values_spec data) as Hspec.
  destruct (int16_values data) as [vals|] eqn:Hv.
  - rewrite (split_leads_nonpositive data vals _ _ Hv Hcount), bind_of_Ok.
    destruct labels as [|label labels]; [done|]. reflexivity.
  - destruct Heven as [m Hm]. destruct Hspec as [m' Hm']. lia.
Qed.

End BuildLeads.

Lemma build_leads_count_witness :
  (length ["I"; "II"] ≤ length Cases.three_arrays)%nat ∧
  ∃ built,
    build_leads 500 10 Cases.three_arrays 0 ["I"; "II"] = Ok built ∧
    lead_samples <$> built = [Examples.array [1]; Examples.array [2]].
Proof.
  assert (Hlen : (length ["I"; "II"] ≤ length Cases.three_arrays)%nat) by (cbn; lia).
  split; [exact Hlen|].
  destruct (proj1 (build_leads_count 500 10 Cases.three_arrays ["I"; "II"]) Hlen)
    as (built & Hrun & _ & _ & Hsamples & _).
  exists built. split; [exact Hrun | exact Hsamples].
Defined.

Lemma no_samples_no_leads_witness :
  ∃ signal_details parsed_waveforms data,
    waveform_elements (Examples.root_of Cases.zero_duration) signal_details parsed_waveforms ∧
    payload_decoded signal_details parsed_waveforms 500 0 0 data ∧
    declared_compression parsed_waveforms = "Uncompressed" ∧
    Nat.Even (length data) ∧
    get_or_create_labels signal_details parsed_waveforms = Ok ["I"; "II"] ∧
    ["I"; "II"] ≠ [] ∧
    0 <= 0 ∧
    assert_leads (Examples.root_of Cases.zero_duration) = Err IndexError.
Proof.
  exists (Examples.signal "500" "2" "STD-12"),
         (Examples.waveforms [("durationperchannel", "0"); ("dataencoding", "Base64")] "AQACAA=="),
         [Byte.x01; Byte.x00; Byte.x02; Byte.x00].
  assert (Helts : waveform_elements (Examples.root_of Cases.zero_duration)
                    (Examples.signal "500" "2" "STD-12")
                    (Examples.waveforms [("durationperchannel", "0"); ("dataencoding", "Base64")]
                                        "AQACAA=="))
    by (eexists; repeat split; reflexivity).
  assert (Hpre : payload_decoded (Examples.signal "500" "2" "STD-12")
                   (Examples.waveforms [("durationperchannel", "0"); ("dataencoding", "Base64")]
                                       "AQACAA==")
                   500 0 0 [Byte.x01; Byte.x00; Byte.x02; Byte.x00]).
  { split; [eexists; split; reflexivity|].
    split; [eexists; split; reflexivity|].
    repeat split; reflexivity. }
  assert (Heven : Nat.Even (length [Byte.x01; Byte.x00; Byte.x02; Byte.x00]))
    by (exists 2%nat; reflexivity).
  split; [exact Helts|]. split; [exact Hpre|]. split; [reflexivity|].
  split; [exact Heven|]. split; [reflexivity|]. split; [discriminate|].
  split; [discriminate|].
  exact (no_samples_no_leads _ _ _ 500 0 0 _ ["I"; "II"] Helts Hpre eq_refl Heven eq_refl
           ltac:(discriminate) ltac:(discriminate)).
Defined.

(** ** What the corrections keep and when they fail *)

Section Corrections.
Context `{host : Host}.

Lemma setitem_inv (t t' : ndarray) (i : nat) (v : Z) :
  setitem t i v = Ok t' →
  writeable t = true ∧ (i < length (items t))%nat ∧
  t' = mk_ndarray true (<[i := wrap16 v]> (items t)).
Proof.
  unfold setitem. destruct (writeable t); cbn; [|done].
  destruct (decide (i < length (items t))%nat); [|done].
  intros [= <-]. done.
Qed.

Lemma correct_iii_inv lead_i lead_ii i t t' :
  correct_iii lead_i lead_ii i t = Ok t' → ∃ v, setitem t i v = Ok t'.
Proof. unfold correct_iii. intros H. do 3 bind_inv H. eauto. Qed.

Lemma correct_avr_inv lead_i lead_ii i t t' :
  correct_avr lead_i lead_ii i t = Ok t' → ∃ v, setitem t i v = Ok t'.
Proof. unfold correct_avr. intros H. do 3 bind_inv H. eauto. Qed.

Lemma correct_avl_inv lead_i lead_iii i t t' :
  correct_avl lead_i lead_iii i t = Ok t' → ∃ v, setitem t i v = Ok t'.
Proof. unfold correct_avl. intros H. do 3 bind_inv H. eauto. Qed.

Lemma correct_avf_inv lead_ii lead_iii i t t' :
  correct_avf lead_ii lead_iii i t = Ok t' → ∃ v, setitem t i v = Ok t'.
Proof. unfold correct_avf. intros H. do 3 bind_inv H. eauto. Qed.

Lemma for_range_preserves (P : ndarray → Prop) (body : nat → ndarray → result ndarray) :
  (∀ i t t', body i t = Ok t' → P t → P t') →
  ∀ n i t t', for_range body i n t = Ok t' → P t → P t'.
Proof.
  intros Hbody n. induction n as [|n IH]; intros i t t' H Ht.
  - by injection H as <-.
  - cbn in H. apply bind_Ok in H as (t1 & H1 & H). eauto.
Qed.

Lemma setitem_kept (t0 t t' : ndarray) (i : nat) (v : Z) :
  setitem t i v = Ok t' → kept t0 t → kept t0 t'.
Proof.
  intros H [Hlen Hrange]. apply setitem_inv in H as (_ & _ & ->).
  unfold kept, array_len in *. cbn [items]. rewrite length_insert. split; [done|].
  intros H0. apply Forall_insert; [by apply Hrange | apply wrap16_range].
Qed.

Lemma loop_kept (body : nat → ndarray → result ndarray) (t0 t' : ndarray) :
  (∀ i t t1, body i t = Ok t1 → ∃ v, setitem t i v = Ok t1) →
  for_range body 0 (array_len t0) t0 = Ok t' →
  kept t0 t'.
Proof.
  intros Hbody H.
  apply (for_range_preserves (kept t0) body) in H; [done | | by split].
  intros i t t1 H1 Ht. apply Hbody in H1 as [v Hv]. by eapply setitem_kept.
Qed.

Lemma derive_leads_inv (leads0 leads' : list EcgLead) :
  derive_leads leads0 = Ok leads' →
  ∃ l2 l3 l4 l5 a2 a3 a4 a5,
    leads0 !! 2%nat = Some l2 ∧ leads0 !! 3%nat = Some l3 ∧
    leads0 !! 4%nat = Some l4 ∧ leads0 !! 5%nat = Some l5 ∧
    kept (lead_samples l2) a2 ∧ kept (lead_samples l3) a3 ∧
    kept (lead_samples l4) a4 ∧ kept (lead_samples l5) a5 ∧
    leads' = <[5%nat := with_samples l5 a5]>
             (<[4%nat := with_samples l4 a4]>
              (<[3%nat := with_samples l3 a3]>
               (<[2%nat := with_samples l2 a2]> leads0))).
Proof.
  unfold derive_leads, lead_at. intros H.
  do 6 (let x := fresh "l" in let Hx := fresh "Hl" in
        apply bind_Ok in H; destruct H as (x & Hx & H);
        apply raise_if_none_Ok in Hx).
  apply bind_Ok in H as (a2 & H2 & H). apply bind_Ok in H as (a3 & H3 & H).
  apply bind_Ok in H as (a4 & H4 & H). apply bind_Ok in H as (a5 & H5 & H).
  injection H as <-.
  apply loop_kept in H2; [|by apply correct_iii_inv].
  apply loop_kept in H3; [|by apply correct_avr_inv].
  apply loop_kept in H4; [|by apply correct_avl_inv].
  apply loop_kept in H5; [|by apply correct_avf_inv].
  eexists _, _, _, _, a2, a3, a4, a5.
  repeat (split; [eassumption|]). reflexivity.
Qed.

(** X8. Whenever the corrections succeed, the list has the same leads in
    the same order: every lead keeps its label, sampling rate, duration and
    number of samples, and if its samples were 16-bit values they still
    are. *)
Theorem derive_leads_keeps_shape (leads0 leads' : list EcgLead) :
  derive_leads leads0 = Ok leads' →
  length leads' = length leads0 ∧
  ∀ k l l', leads0 !! k = Some l → leads' !! k = Some l' →
    same_lead_but_samples l l' ∧
    (Forall int16 (samples l) → Forall int16 (samples l')).
Proof.
  intros H. apply derive_leads_inv in H
    as (l2 & l3 & l4 & l5 & a2 & a3 & a4 & a5 & H2 & H3 & H4 & H5
        & K2 & K3 & K4 & K5 & ->).
  split; [by rewrite !length_insert|].
  intros k l l' Hl Hl'.
  assert (Hk : (k < length leads0)%nat) by by eapply lookup_lt_Some.
  destruct (decide (k = 5%nat)) as [-> | N5].
  { rewrite list_lookup_insert_eq in Hl' by (by rewrite !length_insert).
    injection Hl' as <-. rewrite H5 in Hl. injection Hl as <-.
    destruct K5. by repeat split. }
  rewrite list_lookup_insert_ne in Hl' by done.
  destruct (decide (k = 4%nat)) as [-> | N4].
  { rewrite list_lookup_insert_eq in Hl' by (by rewrite !length_insert).
    injection Hl' as <-. rewrite H4 in Hl. injection Hl as <-.
    destruct K4. by repeat split. }
  rewrite list_lookup_insert_ne in Hl' by done.
  destruct (decide (k = 3%nat)) as [-> | N3].
  { rewrite list_lookup_insert_eq in Hl' by (by rewrite !length_insert).
    injection Hl' as <-. rewrite H3 in Hl. injection Hl as <-.
    destruct K3. by repeat split. }
  rewrite list_lookup_insert_ne in Hl' by done.
  destruct (decide (k = 2%nat)) as [-> | N2].
  { rewrite list_lookup_insert_eq in Hl' by done.
    injection Hl' as <-. rewrite H2 in Hl. injection Hl as <-.
    destruct K2. by repeat split. }
  rewrite list_lookup_insert_ne in Hl' by done.
  rewrite Hl in Hl'. injection Hl' as <-. by repeat split.
Qed.

(** X9. An array built over the decoded bytes refuses item assignment: with
    such an array as lead III, and at least one sample in leads I, II and
    III, the first correction raises [ValueError] and so does
    [read_file]. *)
Theorem read_only_leads_rejected (xdom root : node) (t v : string)
    (leads0 : list EcgLead) (labels : list string) (l0 l1 l2 l3 l4 l5 : EcgLead)
    (include_repbeats : bool) :
  get_node xdom "restingecgdata" = Ok root →
  assert_version root = Ok (t, v) →
  assert_leads root = Ok (leads0, labels) →
  leads0 !! 0%nat = Some l0 → leads0 !! 1%nat = Some l1 → leads0 !! 2%nat = Some l2 →
  leads0 !! 3%nat = Some l3 → leads0 !! 4%nat = Some l4 → leads0 !! 5%nat = Some l5 →
  writeable (lead_samples l2) = false →
  samples l0 ≠ [] → samples l1 ≠ [] → samples l2 ≠ [] →
  derive_leads leads0 = Err ValueError ∧
  read_file xdom include_repbeats = Err ValueError.
Proof.
  intros Hroot Hver Hleads H0 H1 H2 H3 H4 H5 Hro N0 N1 N2.
  assert (Hd : derive_leads leads0 = Err ValueError).
  { unfold derive_leads, lead_at. rewrite H0, H1, H2, H3, H4, H5. cbn.
    unfold samples in *.
    destruct (lead_samples l0) as [w0 [|x0 i0]]; [done|].
    destruct (lead_samples l1) as [w1 [|x1 i1]]; [done|].
    destruct (lead_samples l2) as [w2 [|x2 i2]]; [done|].
    cbn in Hro. subst w2. reflexivity. }
  split; [done|].
  rewrite (read_file_after_leads _ _ _ _ _ _ _ Hroot Hver Hleads). by rewrite Hd.
Qed.

Lemma iii_loop_ragged (lead_i lead_ii : ndarray) (m k : nat) (t : ndarray) :
  writeable t = true →
  length (items t) = (k + m)%nat →
  (∃ j, (k ≤ j < k + m)%nat ∧ (items lead_i !! j = None ∨ items lead_ii !! j = None)) →
  for_range (correct_iii lead_i lead_ii) k m t = Err IndexError.
Proof.
  revert k t. induction m as [|m IH]; intros k t Hw Hlen (j & Hj & Hbad); [lia|].
  cbn [for_range].
  destruct (items lead_ii !! k) as [b|] eqn:Hb; cycle 1.
  { unfold correct_iii, getitem. by rewrite Hb. }
  destruct (items lead_i !! k) as [a|] eqn:Ha; cycle 1.
  { unfold correct_iii, getitem. by rewrite Hb, Ha. }
  destruct (lookup_lt_is_Some_2 (items t) k ltac:(lia)) as [c Hc].
  rewrite (correct_iii_step lead_i lead_ii t k a b c Ha Hb Hc Hw), bind_of_Ok.
  apply IH; cbn; [done | rewrite length_insert; lia |].
  exists j. split; [|done].
  destruct (decide (j = k)) as [-> | ?]; [|lia].
  destruct Hbad as [Hbad | Hbad]; congruence.
Qed.

(** X10. Leads of unequal length are not corrected: when lead III accepts
    writes and is longer than lead I or lead II, the reader raises
    [IndexError]. *)
Theorem ragged_leads_rejected (leads0 : list EcgLead) (l0 l1 l2 l3 l4 l5 : EcgLead) :
  leads0 !! 0%nat = Some l0 → leads0 !! 1%nat = Some l1 → leads0 !! 2%nat = Some l2 →
  leads0 !! 3%nat = Some l3 → leads0 !! 4%nat = Some l4 → leads0 !! 5%nat = Some l5 →
  writeable (lead_samples l2) = true →
  (length (samples l0) < length (samples l2) ∨ length (samples l1) < length (samples l2))%nat →
  derive_leads leads0 = Err IndexError.
Proof.
  intros H0 H1 H2 H3 H4 H5 Hw Hshort.
  unfold derive_leads, lead_at. rewrite H0, H1, H2, H3, H4, H5. cbn.
  unfold samples in Hshort.
  rewrite (iii_loop_ragged (lead_samples l0) (lead_samples l1)
             (array_len (lead_samples l2)) 0 (lead_samples l2) Hw eq_refl); [done|].
  unfold array_len. destruct Hshort as [Hs | Hs].
  - exists (length (items (lead_samples l0))). split; [lia|]. left.
    by apply lookup_ge_None.
  - exists (length (items (lead_samples l1))). split; [lia|]. right.
    by apply lookup_ge_None.
Qed.

End Corrections.

Lemma derive_leads_keeps_shape_witness :
  derive_leads Examples.overflow_leads
    = Ok (Examples.six_leads [-20000] [20000] [-25536] [0] [2768] [-2768]) ∧
  length (Examples.six_leads [-20000] [20000] [-25536] [0] [2768] [-2768])
    = length Examples.overflow_leads.
Proof.
  split; [reflexivity|].
  exact (proj1 (derive_leads_keeps_shape Examples.overflow_leads _ eq_refl)).
Defined.

Lemma read_only_leads_rejected_witness :
  ∃ leads0 labels l0 l1 l2 l3 l4 l5,
    get_node Cases.six_uncompressed "restingecgdata"
      = Ok (Examples.root_of Cases.six_uncompressed) ∧
    assert_version (Examples.root_of Cases.six_uncompressed) = Ok ("SierraECG", "1.04") ∧
    assert_leads (Examples.root_of Cases.six_uncompressed) = Ok (leads0, labels) ∧
    leads0 = [l0; l1; l2; l3; l4; l5] ∧
    samples <$> leads0 = [[10; 20]; [30; 40]; [50; 60]; [70; 80]; [90; 100]; [110; 120]] ∧
    writeable (lead_samples l2) = false ∧
    read_file Cases.six_uncompressed false = Err ValueError.
Proof.
  eexists _, _, _, _, _, _, _, _.
  split; [reflexivity|]. split; [reflexivity|]. split; [reflexivity|].
  split; [reflexivity|]. split; [reflexivity|]. split; [reflexivity|].
  eapply (read_only_leads_rejected Cases.six_uncompressed
            (Examples.root_of Cases.six_uncompressed) "SierraECG" "1.04");
    try reflexivity; discriminate.
Defined.

Lemma ragged_leads_rejected_witness :
  writeable (lead_samples Cases.long_iii) = true ∧
  (length (samples Cases.short_i) < length (samples Cases.long_iii))%nat ∧
  derive_leads Cases.ragged_leads = Err IndexError.
Proof.
  split; [reflexivity|].
  assert (Hs : (length (samples Cases.short_i) < length (samples Cases.long_iii))%nat)
    by (cbn; lia).
  split; [exact Hs|].
  exact (ragged_leads_rejected Cases.ragged_leads
           Cases.short_i (Examples.lead "II" [4]) Cases.long_iii
           (Examples.lead "aVR" [0]) (Examples.lead "aVL" [0]) (Examples.lead "aVF" [0])
           eq_refl eq_refl eq_refl eq_refl eq_refl eq_refl eq_refl (or_introl Hs)).
Defined.

(** ** Labels *)

Lemma slice_to_negative {A} (l : list A) (n : Z) :
  n < 0 → Py.slice_to l n = take (length l - Z.to_nat (- n)) l.
Proof.
  intros Hn. unfold Py.slice_to, Py.slice, Py.clamp_index.
  replace (0 <? 0) with false by done.
  replace (n <? 0) with true by (symmetry; apply Z.ltb_lt; lia).
  rewrite (Z.min_l 0) by lia. change (Z.to_nat 0) with 0%nat. rewrite drop_0.
  f_equal. lia.
Qed.

Lemma str_inj (i j : Z) : Py.str i = Py.str j → i = j.
Proof.
  unfold Py.str. intros H. apply DecimalZ.to_int_inj.
  assert (Hnz : ∀ z, Z.to_int z ≠ Decimal.Pos Decimal.Nil ∧ Z.to_int z ≠ Decimal.Neg Decimal.Nil).
  { intros [|p|p]; cbn; split; try discriminate;
      intros [= E]; by apply DecimalPos.Unsigned.to_uint_nonnil in E. }
  pose proof (NilZero.isi (Z.to_int i) (proj1 (Hnz i)) (proj2 (Hnz i))) as Ei.
  pose proof (NilZero.isi (Z.to_int j) (proj1 (Hnz j)) (proj2 (Hnz j))) as Ej.
  rewrite H in Ei. congruence.
Qed.

Lemma get_lead_name_outside (acq : string) (index : Z) :
  index < 1 ∨ 12 < index → get_lead_name acq index = "Channel " +:+ Py.str index.
Proof.
  intros Hout. unfold get_lead_name. destruct (str_in acq _); [|done].
  repeat match goal with
         | |- context [?x =? ?y] => replace (x =? y) with false by (symmetry; apply Z.eqb_neq; lia)
         end.
  destruct (6 <? index) eqn:E1; [|done].
  apply Z.ltb_lt in E1.
  replace (index <=? 12) with false by (symmetry; apply Z.leb_gt; lia).
  reflexivity.
Qed.

Lemma get_lead_name_inj (acq : string) (i j : Z) :
  get_lead_name acq i = get_lead_name acq j → i = j.
Proof.
  destruct (str_in acq ["STD-12"; "10-WIRE"]) eqn:Hstd; cycle 1.
  { unfold get_lead_name. rewrite Hstd. intros [= H]. by apply str_inj. }
  assert (Hname : ∀ k, get_lead_name acq k =
            if k =? 1 then "I" else if k =? 2 then "II" else if k =? 3 then "III"
            else if k =? 4 then "aVR" else if k =? 5 then "aVL" else if k =? 6 then "aVF"
            else if (6 <? k) && (k <=? 12) then "V" +:+ Py.str (k - 6)
            else "Channel " +:+ Py.str k)
    by (intros k; unfold get_lead_name; by rewrite Hstd).
  assert (Hi : i = 1 ∨ i = 2 ∨ i = 3 ∨ i = 4 ∨ i = 5 ∨ i = 6 ∨ i = 7 ∨ i = 8 ∨ i = 9
               ∨ i = 10 ∨ i = 11 ∨ i = 12 ∨ (i < 1 ∨ 12 < i)) by lia.
  assert (Hj : j = 1 ∨ j = 2 ∨ j = 3 ∨ j = 4 ∨ j = 5 ∨ j = 6 ∨ j = 7 ∨ j = 8 ∨ j = 9
               ∨ j = 10 ∨ j = 11 ∨ j = 12 ∨ (j < 1 ∨ 12 < j)) by lia.
  intros H.
  destruct Hi as [-> | [-> | [-> | [-> | [-> | [-> | [-> | [-> | [-> | [-> | [-> | [-> | Hi]]]]]]]]]]]];
  destruct Hj as [-> | [-> | [-> | [-> | [-> | [-> | [-> | [-> | [-> | [-> | [-> | [-> | Hj]]]]]]]]]]]];
    try reflexivity;
    rewrite ?(get_lead_name_outside acq i) in H by done;
    rewrite ?(get_lead_name_outside acq j) in H by done;
    rewrite ?Hname in H;
    try (vm_compute in H; discriminate H);
    try (cbn in H; discriminate H).
  injection H as H. by apply str_inj.
Qed.

Lemma synthesized_labels (signal_details parsed_waveforms n_chan n_acq : node) (count : Z) :
  attr parsed_waveforms "leadlabels" = None ∨ attr parsed_waveforms "leadlabels" = Some "" →
  get_node signal_details "numberchannelsallocated" = Ok n_chan →
  Py.int (get_text n_chan) = Ok count →
  get_node signal_details "acquisitiontype" = Ok n_acq →
  get_or_create_labels signal_details parsed_waveforms
    = Ok ((λ index : nat, get_lead_name (get_text n_acq) (Z.of_nat index))
            <$> seq 1 (Z.to_nat count)).
Proof.
  intros Hl Hc Hcount Hacq. unfold get_or_create_labels.
  assert (E : get_attr parsed_waveforms "leadlabels" (Some "") = Ok "")
    by (rewrite get_attr_with_default; destruct Hl as [-> | ->]; reflexivity).
  rewrite E. cbn. rewrite Hc. cbn. rewrite Hcount. cbn. rewrite Hacq. cbn.
  by rewrite (range_shift (get_lead_name (get_text n_acq))).
Qed.

(** X11. A negative [numberofleads] cuts labels off the end of the
    explicit list: with [numberofleads = n < 0] the result is the list
    without its last [-n] labels (the empty list when there are not that
    many). *)
Theorem negative_lead_count (signal_details parsed_waveforms : node)
    (lead_labels a : string) (n : Z) :
  attr parsed_waveforms "leadlabels" = Some lead_labels →
  lead_labels ≠ "" →
  attr parsed_waveforms "numberofleads" = Some a →
  Py.int a = Ok n →
  n < 0 →
  get_or_create_labels signal_details parsed_waveforms
    = Ok (take (length (Py.split_space lead_labels) - Z.to_nat (- n))
               (Py.split_space lead_labels)).
Proof.
  intros Hl Hne Ha Hn Hneg.
  unfold get_or_create_labels. rewrite (get_attr_present _ _ _ _ Hl). cbn.
  destruct (String.eqb lead_labels "") eqn:E; [by apply String.eqb_eq in E|]. cbn.
  rewrite (get_attr_present _ _ _ _ Ha). cbn. rewrite Hn. cbn.
  by rewrite slice_to_negative.
Qed.

(** X12. Synthesised labels: there are as many as channels allocated (none
    for a count of zero or below) and they are pairwise different,
    whatever the acquisition type. *)
Theorem synthesized_labels_distinct (signal_details parsed_waveforms n_chan n_acq : node)
    (count : Z) :
  attr parsed_waveforms "leadlabels" = None ∨ attr parsed_waveforms "leadlabels" = Some "" →
  get_node signal_details "numberchannelsallocated" = Ok n_chan →
  Py.int (get_text n_chan) = Ok count →
  get_node signal_details "acquisitiontype" = Ok n_acq →
  ∃ labels,
    get_or_create_labels signal_details parsed_waveforms = Ok labels ∧
    length labels = Z.to_nat count ∧
    NoDup labels.
Proof.
  intros Hl Hc Hcount Hacq.
  rewrite (synthesized_labels _ _ _ _ _ Hl Hc Hcount Hacq).
  eexists. split; [reflexivity|]. split; [by rewrite length_fmap, length_seq|].
  apply NoDup_fmap_2; [|apply NoDup_seq].
  intros i j H. apply get_lead_name_inj in H. lia.
Qed.

Lemma negative_lead_count_witness :
  attr Cases.negative_count "leadlabels" = Some "I II III" ∧
  "I II III" ≠ "" ∧
  attr Cases.negative_count "numberofleads" = Some "-1" ∧
  Py.int "-1" = Ok (-1) ∧
  -1 < 0 ∧
  get_or_create_labels Examples.bare_signal Cases.negative_count = Ok ["I"; "II"].
Proof.
  split; [reflexivity|]. split; [discriminate|]. do 2 (split; [reflexivity|]).
  split; [reflexivity|].
  exact (negative_lead_count Examples.bare_signal Cases.negative_count "I II III" "-1" (-1)
           eq_refl ltac:(discriminate) eq_refl eq_refl eq_refl).
Defined.

Lemma synthesized_labels_distinct_witness :
  attr (Examples.waveforms [] "") "leadlabels" = None ∧
  get_node Cases.fourteen_channels "numberchannelsallocated"
    = Ok (Examples.text_elem "numberchannelsallocated" "14") ∧
  Py.int "14" = Ok 14 ∧
  get_node Cases.fourteen_channels "acquisitiontype"
    = Ok (Examples.text_elem "acquisitiontype" "STD-12") ∧
  ∃ labels,
    get_or_create_labels Cases.fourteen_channels (Examples.waveforms [] "") = Ok labels ∧
    length labels = 14%nat ∧
    NoDup labels.
Proof.
  split; [reflexivity|]. split; [reflexivity|]. split; [reflexivity|]. split; [reflexivity|].
  exact (synthesized_labels_distinct Cases.fourteen_channels (Examples.waveforms [] "")
           (Examples.text_elem "numberchannelsallocated" "14")
           (Examples.text_elem "acquisitiontype" "STD-12") 14
           (or_introl eq_refl) eq_refl eq_refl eq_refl).
Defined.

(** ** Representative beats, entry by entry *)

Section BeatEntries.
Context `{host : Host}.

Lemma read_repbeat_fields (encoding : string) (samplingrate : Z) (resolution : pyfloat)
    (method : string) (item : node) (beat : EcgRepbeat) :
  read_repbeat encoding samplingrate resolution method item = Ok beat →
  rb_sampling_freq beat = samplingrate ∧ rb_resolution beat = resolution ∧
  rb_method beat = method ∧ writeable (rb_samples beat) = false.
Proof.
  unfold read_repbeat. intros H.
  apply bind_Ok in H as (name & _ & H).
  assert (Hro : ∀ text arr, decode_beat_samples encoding text = Ok arr → writeable arr = false).
  { intros text arr Hd. unfold decode_beat_samples in Hd.
    apply bind_Ok in Hd as (data & _ & Hd). unfold frombuffer in Hd.
    destruct (int16_values data); [|done]. by injection Hd as <-. }
  destruct (get_opt_node item "waveform");
    apply bind_Ok in H as (a_dur & _ & H); apply bind_Ok in H as (duration & _ & H);
    apply bind_Ok in H as (arr & Harr & H); injection H as <-; cbn;
    repeat split; eauto.
Qed.

Lemma repbeats_loop_keys (encoding : string) (samplingrate : Z) (resolution : pyfloat)
    (method : string) (entries : list node) (m0 m : gmap string EcgRepbeat) :
  repbeats_loop encoding samplingrate resolution method entries m0 = Ok m →
  (∀ name beat, m !! name = Some beat →
     m0 !! name = Some beat ∨
     ∃ item, item ∈ entries ∧
             read_repbeat encoding samplingrate resolution method item = Ok beat ∧
             rb_label beat = name) ∧
  (∀ name, is_Some (m0 !! name) → is_Some (m !! name)) ∧
  (∀ item, item ∈ entries →
     ∃ beat, read_repbeat encoding samplingrate resolution method item = Ok beat ∧
             is_Some (m !! rb_label beat)).
Proof.
  revert m0. induction entries as [|item entries IH]; intros m0 H.
  - injection H as <-. split; [eauto|]. split; [done|].
    intros item Hin. by apply elem_of_nil in Hin.
  - cbn in H. apply bind_Ok in H as (b & Hb & H).
    destruct (IH _ H) as (Hfrom & Hkeep & Hall). split; [|split].
    + intros name beat Hm. destruct (Hfrom name beat Hm) as [H0 | (it & Hit & Hrd & Hlb)].
      * destruct (decide (rb_label b = name)) as [<- | Hne].
        -- rewrite lookup_insert_eq in H0. injection H0 as <-.
           right. exists item. split; [apply list_elem_of_here | done].
        -- rewrite lookup_insert_ne in H0 by done. by left.
      * right. exists it. split; [by apply list_elem_of_further | done].
    + intros name Hs. apply Hkeep.
      destruct (decide (rb_label b = name)) as [<- | Hne].
      * rewrite lookup_insert_eq. eauto.
      * by rewrite lookup_insert_ne.
    + intros it Hin. apply elem_of_cons in Hin as [-> | Hin]; [|by apply Hall].
      exists b. split; [done|]. apply Hkeep. rewrite lookup_insert_eq. eauto.
Qed.

Lemma assert_reps_inv (elt container : node) (m : gmap string EcgRepbeat) :
  get_opt_node elt "repbeats" = Some container →
  assert_reps elt = Ok m →
  ∃ encoding samplingrate resolution,
    attr container "dataencoding" = Some encoding ∧
    Py.int (default "0" (attr container "samplespersec")) = Ok samplingrate ∧
    float_of_str (default "0" (attr container "resolution")) = Some resolution ∧
    repbeats_loop encoding samplingrate resolution (default "" (attr container "repbeatmethod"))
      (get_nodes container "repbeat") ∅ = Ok m.
Proof.
  intros Hc H. unfold assert_reps in H. rewrite Hc in H.
  apply bind_Ok in H as (encoding & Henc & H). apply get_attr_required in Henc.
  rewrite (get_attr_with_default container "samplespersec"), bind_of_Ok in H.
  apply bind_Ok in H as (samplingrate & Hrate & H).
  rewrite (get_attr_with_default container "resolution"), bind_of_Ok in H.
  apply bind_Ok in H as (resolution & Hres & H). apply raise_if_none_Ok in Hres.
  rewrite (get_attr_with_default container "repbeatmethod"), bind_of_Ok in H.
  by exists encoding, samplingrate, resolution.
Qed.

(** X13. In the mapping [assert_reps] returns from a [repbeats] container,
    the keys are exactly the [leadname] attributes of the [repbeat]
    entries; every beat sits under its own label, carries the container's
    sampling rate, resolution and method (0, 0 and "" when the container
    does not give them) and has read-only samples. *)
Theorem beats_keyed_by_leadname (elt container : node) (m : gmap string EcgRepbeat) :
  get_opt_node elt "repbeats" = Some container →
  assert_reps elt = Ok m →
  (∀ name, is_Some (m !! name) ↔
           ∃ item, item ∈ get_nodes container "repbeat" ∧ attr item "leadname" = Some name) ∧
  (∀ name beat, m !! name = Some beat →
     rb_label beat = name ∧ carries_settings container beat).
Proof.
  intros Hc H.
  destruct (assert_reps_inv _ _ _ Hc H) as (encoding & sr & res & _ & Hsr & Hres & Hloop).
  destruct (repbeats_loop_keys _ _ _ _ _ _ _ Hloop) as (Hfrom & _ & Hall).
  split.
  - intros name. split.
    + intros [beat Hbeat].
      destruct (Hfrom name beat Hbeat) as [H0 | (item & Hin & Hrd & Hlb)];
        [by rewrite lookup_empty in H0|].
      exists item. split; [done|]. rewrite <- Hlb. by eapply read_repbeat_label.
    + intros (item & Hin & Hname).
      destruct (Hall item Hin) as (beat & Hrd & Hs).
      apply read_repbeat_label in Hrd. rewrite Hname in Hrd. by injection Hrd as ->.
  - intros name beat Hbeat.
    destruct (Hfrom name beat Hbeat) as [H0 | (item & Hin & Hrd & Hlb)];
      [by rewrite lookup_empty in H0|].
    split; [done|]. unfold carries_settings.
    apply read_repbeat_fields in Hrd as (E1 & E2 & E3 & Hro).
    rewrite E1, E2, E3. by repeat split.
Qed.

(** X14. The extraction gives all the beats or none: a container without
    [dataencoding] raises [MissingXmlAttributeError] even when it has no
    entry, and one entry without [leadname] makes the whole call fail,
    whatever the other entries hold. *)
Theorem beats_all_or_nothing (elt container : node) :
  get_opt_node elt "repbeats" = Some container →
  (attr container "dataencoding" = None →
     assert_reps elt = Err (MissingXmlAttributeError "dataencoding")) ∧
  (∀ item, item ∈ get_nodes container "repbeat" → attr item "leadname" = None →
     is_ok (assert_reps elt) = false).
Proof.
  intros Hc. split.
  - intros Hnone. unfold assert_reps. rewrite Hc.
    by rewrite (get_attr_missing _ _ Hnone).
  - intros item Hin Hname.
    destruct (assert_reps elt) as [m|] eqn:H; [|done]. exfalso.
    destruct (assert_reps_inv _ _ _ Hc H) as (encoding & sr & res & _ & _ & _ & Hloop).
    destruct (repbeats_loop_keys _ _ _ _ _ _ _ Hloop) as (_ & _ & Hall).
    destruct (Hall item Hin) as (beat & Hrd & _).
    apply read_repbeat_label in Hrd. congruence.
Qed.

End BeatEntries.

Lemma beats_keyed_by_leadname_witness :
  ∃ m,
    get_opt_node (Examples.root_of Examples.with_beats) "repbeats"
      = Some Examples.beats_container ∧
    assert_reps (Examples.root_of Examples.with_beats) = Ok m ∧
    is_Some (m !! "II") ∧
    (∀ beat, m !! "II" = Some beat → rb_sampling_freq beat = 1000).
Proof.
  assert (Hrun : ∃ m, assert_reps (Examples.root_of Examples.with_beats) = Ok m)
    by (eexists; reflexivity).
  destruct Hrun as [m Hrun].
  destruct (beats_keyed_by_leadname (Examples.root_of Examples.with_beats)
              Examples.beats_container m eq_refl Hrun) as [Hkeys Hbeats].
  exists m. split; [reflexivity|]. split; [exact Hrun|]. split.
  - apply Hkeys. exists (Examples.beat "II" "350" ""). split; [|reflexivity].
    apply list_elem_of_further, list_elem_of_here.
  - intros beat Hb. destruct (Hbeats "II" beat Hb) as (_ & Hsr & _).
    cbn in Hsr. by injection Hsr as <-.
Defined.

Lemma beats_all_or_nothing_witness :
  get_opt_node Cases.broken_root "repbeats" = Some Cases.broken_container ∧
  Cases.nameless_entry ∈ get_nodes Cases.broken_container "repbeat" ∧
  attr Cases.nameless_entry "leadname" = None ∧
  is_ok (assert_reps Cases.broken_root) = false.
Proof.
  assert (Hin : Cases.nameless_entry ∈ get_nodes Cases.broken_container "repbeat")
    by apply list_elem_of_further, list_elem_of_here.
  split; [reflexivity|]. split; [exact Hin|]. split; [reflexivity|].
  exact (proj2 (beats_all_or_nothing Cases.broken_root Cases.broken_container eq_refl)
           Cases.nameless_entry Hin eq_refl).
Defined.

(** ** What a successful read guarantees *)

Section ReadFile.
Context `{host : Host}.




Lemma read_file_inv (xdom : node) (include_repbeats : bool) (file : SierraEcgFile) :
  read_file xdom include_repbeats = Ok file →
  ∃ root leads0 labels,
    get_node xdom "restingecgdata" = Ok root ∧
    assert_version root = Ok (doc_type file, doc_ver file) ∧
    assert_leads root = Ok (leads0, labels) ∧
    derive_leads leads0 = Ok (leads file) ∧
    (if include_repbeats then assert_reps root = Ok (repbeats file) else repbeats file = ∅).
Proof.
  unfold read_file. intros H.
  apply bind_Ok in H as (root & Hroot & H).
  apply bind_Ok in H as ([t v] & Hver & H).
  apply bind_Ok in H as ([leads0 labels] & Hleads & H).
  apply bind_Ok in H as (leads' & Hd & H).
  apply bind_Ok in H as (beats & Hbeats & H). injection H as <-. cbn.
  exists root, leads0, labels. repeat split; try done.
  destruct include_repbeats; [done | by injection Hbeats as <-].
Qed.


(** X16. Requesting the beats only adds the beats. If [read_file] succeeds
    with them, it succeeds without them with the same type, version and
    leads, and its [repbeats] are what [assert_reps] returns; if it
    succeeds without them and [assert_reps] fails, the call with beats
    fails with that error; and an error of the call without beats is the
    error of the call with beats. *)
Theorem beats_only_add (xdom root : node) :
  get_node xdom "restingecgdata" = Ok root →
  (∀ file, read_file xdom true = Ok file →
     ∃ file0, read_file xdom false = Ok file0 ∧
              same_file_but_beats file0 file ∧
              assert_reps root = Ok (repbeats file)) ∧
  (∀ file0 e, read_file xdom false = Ok file0 → assert_reps root = Err e →
     read_file xdom true = Err e) ∧
  (∀ e, read_file xdom false = Err e → read_file xdom true = Err e).
Proof.
  intros Hroot. unfold read_file. rewrite Hroot, !bind_of_Ok.
  destruct (assert_version root) as [[t v]|e1]; cycle 1.
  { cbn. repeat split; try done. }
  rewrite !bind_of_Ok.
  destruct (assert_leads root) as [[leads0 labels]|e2]; cycle 1.
  { cbn. repeat split; try done. }
  rewrite !bind_of_Ok.
  destruct (derive_leads leads0) as [leads'|e3]; cycle 1.
  { cbn. repeat split; try done. }
  rewrite !bind_of_Ok. split; [|split].
  - intros file H. apply bind_Ok in H as (beats & Hbeats & H). injection H as <-.
    eexists. split; [reflexivity|]. by repeat split.
  - intros file0 e _ ->. reflexivity.
  - intros e H. discriminate H.
Qed.

End ReadFile.


Lemma beats_only_add_witness :
  ∃ file file0,
    get_node Examples.with_beats "restingecgdata" = Ok (Examples.root_of Examples.with_beats) ∧
    read_file Examples.with_beats true = Ok file ∧
    read_file Examples.with_beats false = Ok file0 ∧
    leads file0 = leads file.
Proof.
  assert (Hrun : ∃ file, read_file Examples.with_beats true = Ok file)
    by (eexists; reflexivity).
  destruct Hrun as [file Hrun].
  destruct (proj1 (beats_only_add Examples.with_beats (Examples.root_of Examples.with_beats)
                     eq_refl) file Hrun)
    as (file0 & Hrun0 & (_ & _ & Hleads) & _).
  exists file, file0. split; [reflexivity|]. split; [exact Hrun|].
  split; [exact Hrun0 | by symmetry].
Defined.

(** ** Containers that are created per call *)

Section OwnContainers.
Context `{host : Host}.

(** X17. With the beats requested, every call creates its own list of
    leads and its own dictionary of beats: two calls in a row give four
    different containers, none of them the class-level dictionary, and the
    second call leaves the list and the dictionary of the first result as
    they were. *)
Theorem requested_beats_not_shared (cls : Objects.class_object) (xdom1 xdom2 : node)
    (σ0 σ1 σ2 : Objects.store) (o1 o2 : Objects.instance) :
  (Objects.cls_repbeats cls < Objects.next_loc σ0)%nat →
  Objects.read_file cls xdom1 true σ0 = Ok (o1, σ1) →
  Objects.read_file cls xdom2 true σ1 = Ok (o2, σ2) →
  NoDup [Objects.cls_repbeats cls;
         Objects.attr_leads cls o1; Objects.attr_repbeats cls o1;
         Objects.attr_leads cls o2; Objects.attr_repbeats cls o2] ∧
  Objects.list_at (Objects.attr_leads cls o1) σ2 = Objects.list_at (Objects.attr_leads cls o1) σ1 ∧
  Objects.dict_at (Objects.attr_repbeats cls o1) σ2
    = Objects.dict_at (Objects.attr_repbeats cls o1) σ1.
Proof.
  intros Hcls H1 H2.
  apply objects_read_file_inv in H1
    as (f1 & _ & _ & _ & Hl1 & _ & (Hown1 & _ & Hnext1) & _).
  apply objects_read_file_inv in H2
    as (f2 & _ & _ & _ & Hl2 & _ & (Hown2 & _ & Hnext2) & Hkeep2).
  unfold Objects.attr_repbeats, Objects.attr_leads, Objects.list_at, Objects.dict_at.
  rewrite Hown1, Hown2, Hl1, Hl2. cbn.
  split; [|split].
  - repeat (apply NoDup_cons; split; [rewrite ?elem_of_cons, elem_of_nil; lia|]).
    apply NoDup_nil_2.
  - by rewrite Hkeep2 by lia.
  - by rewrite Hkeep2 by lia.
Qed.

End OwnContainers.

Lemma requested_beats_not_shared_witness :
  ∃ o1 σ1 o2 σ2,
    (Objects.cls_repbeats Examples.imported_class < Objects.next_loc Examples.imported_store)%nat ∧
    Objects.read_file Examples.imported_class Examples.with_beats true Examples.imported_store
      = Ok (o1, σ1) ∧
    Objects.read_file Examples.imported_class Examples.with_beats true σ1 = Ok (o2, σ2) ∧
    Objects.attr_repbeats Examples.imported_class o1
      ≠ Objects.attr_repbeats Examples.imported_class o2.
Proof.
  assert (H1 : ∃ o1 σ1, Objects.read_file Examples.imported_class Examples.with_beats true
                          Examples.imported_store = Ok (o1, σ1))
    by (eexists _, _; reflexivity).
  destruct H1 as (o1 & σ1 & H1).
  assert (H2 : ∃ o2 σ2, Objects.read_file Examples.imported_class Examples.with_beats true σ1
                        = Ok (o2, σ2))
    by (eexists _, _; reflexivity).
  destruct H2 as (o2 & σ2 & H2).
  assert (Hcls : (Objects.cls_repbeats Examples.imported_class
                  < Objects.next_loc Examples.imported_store)%nat) by (cbn; lia).
  destruct (requested_beats_not_shared Examples.imported_class
              Examples.with_beats Examples.with_beats
              Examples.imported_store σ1 σ2 o1 o2 Hcls H1 H2) as (Hnd & _ & _).
  exists o1, σ1, o2, σ2.
  split; [exact Hcls|]. split; [exact H1|]. split; [exact H2|].
  intros E. apply NoDup_cons in Hnd as [_ Hnd]. apply NoDup_cons in Hnd as [_ Hnd].
  apply NoDup_cons in Hnd as [Hnot _]. apply Hnot. rewrite E.
  apply list_elem_of_further, list_elem_of_here.
Defined.

(** ** Text content *)

Lemma append_nil_r (s : string) : s +:+ "" = s.
Proof.
  induction s as [|c s IH]; [done|].
  change (String c (s +:+ "") = String c s). by rewrite IH.
Qed.

Lemma append_assoc (s1 s2 s3 : string) : (s1 +:+ s2) +:+ s3 = s1 +:+ (s2 +:+ s3).
Proof.
  induction s1 as [|c s1 IH]; [done|].
  change (String c ((s1 +:+ s2) +:+ s3) = String c (s1 +:+ (s2 +:+ s3))). by rewrite IH.
Qed.

Lemma concat_empty_cons (x : string) (xs : list string) :
  String.concat "" (x :: xs) = x +:+ String.concat "" xs.
Proof. destruct xs; cbn; [by rewrite append_nil_r | done]. Qed.

Lemma concat_empty_app (xs ys : list string) :
  String.concat "" (xs ++ ys) = String.concat "" xs +:+ String.concat "" ys.
Proof.
  induction xs as [|x xs IH]; [done|].
  rewrite <- app_comm_cons, !concat_empty_cons, IH. by rewrite append_assoc.
Qed.

(** X18. [get_text] joins the text nodes among the children, in order, and
    nothing else: the text of two runs of children is the concatenation of
    their texts, a text node gives its data, and element, comment and
    CDATA children give nothing (the text inside a nested element is not
    collected). *)
Theorem get_text_pieces (tag : string) (attrs : list (string * string)) (kids kids' : list node) :
  get_text (Element tag attrs (kids ++ kids')) = text_of kids +:+ text_of kids' ∧
  (∀ d, text_of [TextNode d] = d) ∧
  (∀ t a ks, text_of [Element t a ks] = "") ∧
  text_of [OtherNode] = "".
Proof.
  split; [|by repeat split].
  unfold text_of, get_text. cbn [children].
  by rewrite flat_map_app, concat_empty_app.
Qed.

(** ** Labels of the result *)

Section ResultLabels.
Context `{host : Host}.

Lemma assert_leads_labels (elt : node) (leads0 : list EcgLead) (labels : list string) :
  assert_leads elt = Ok (leads0, labels) →
  ∃ signal_details parsed_waveforms,
    waveform_elements elt signal_details parsed_waveforms ∧
    get_or_create_labels signal_details parsed_waveforms = Ok labels ∧
    lead_label <$> leads0 = labels.
Proof.
  unfold assert_leads. intros H.
  apply bind_Ok in H as (acq & Hacq & H). apply bind_Ok in H as (sd & Hsd & H).
  apply bind_Ok in H as (pw & Hpw & H). apply bind_Ok in H as (n_rate & _ & H).
  apply bind_Ok in H as (f & _ & H). apply bind_Ok in H as (a_dur & _ & H).
  apply bind_Ok in H as (d & _ & H). apply bind_Ok in H as (labels' & Hlabels & H).
  apply bind_Ok in H as (wd & _ & H). apply bind_Ok in H as (built & Hbuilt & H).
  injection H as <- <-.
  exists sd, pw. split; [by exists acq|]. split; [done|].
  by apply build_leads_pairs in Hbuilt as [? _].
Qed.

(** X19. The leads of a result carry the resolved labels, one lead per
    label and in the order of the labels; the corrections do not reorder
    or rename them. *)
Theorem result_labels_in_order (xdom : node) (include_repbeats : bool) (file : SierraEcgFile) :
  read_file xdom include_repbeats = Ok file →
  ∃ root signal_details parsed_waveforms labels,
    get_node xdom "restingecgdata" = Ok root ∧
    waveform_elements root signal_details parsed_waveforms ∧
    get_or_create_labels signal_details parsed_waveforms = Ok labels ∧
    lead_label <$> leads file = labels.
Proof.
  intros H. apply read_file_inv in H
    as (root & leads0 & labels & Hroot & _ & Hleads & Hd & _).
  apply assert_leads_labels in Hleads as (sd & pw & Helts & Hlabels & Hnames).
  apply derive_leads_frame in Hd as (_ & _ & Hkeep).
  exists root, sd, pw, labels. repeat split; try done. by rewrite Hkeep.
Qed.

End ResultLabels.

Lemma get_text_pieces_witness :
  get_text (Element "parsedwaveforms" [] Cases.mixed_content) = "AQACAA==".
Proof.
  pose proof (proj1 (get_text_pieces "parsedwaveforms" []
                       [TextNode "AQAC"; OtherNode]
                       [Element "b" [] [TextNode "zzzz"]; TextNode "AA=="])) as H.
  exact H.
Defined.

Lemma result_labels_in_order_witness :
  ∃ file,
    read_file Examples.six_by_codec false = Ok file ∧
    lead_label <$> leads file = ["I"; "II"; "III"; "aVR"; "aVL"; "aVF"].
Proof.
  assert (Hrun : ∃ file, read_file Examples.six_by_codec false = Ok file)
    by (eexists; reflexivity).
  destruct Hrun as [file Hrun].
  destruct (result_labels_in_order Examples.six_by_codec false file Hrun)
    as (root & sd & pw & labels & Hroot & (acq & Hacq & Hsd & Hpw) & Hlabels & Hnames).
  exists file. split; [exact Hrun|].
  injection Hroot as <-. injection Hacq as <-. injection Hsd as <-. injection Hpw as <-.
  injection Hlabels as <-. exact Hnames.
Defined.

(** ** Uncompressed payloads and the corrections *)

Section UncompressedPayload.
Context `{host : Host}.

Lemma split_leads_arrays (data : list Byte.byte) (vals : list Z) (lead_count : nat) (samples : Z) :
  int16_values data = Some vals →
  0 < samples →
  split_leads data lead_count samples
    = Ok ((λ k, mk_ndarray false (block vals (Z.to_nat samples) k)) <$> seq 0 lead_count).
Proof.
  intros Hv Hs.
  pose proof (split_loop_run (mk_ndarray false vals) samples lead_count 0 [] Hs) as E.
  change (Z.of_nat 0 * samples) with 0 in E.
  change (0 + lead_count)%nat with lead_count in E.
  cbn [app] in E.
  unfold split_leads, frombuffer. rewrite Hv. cbn. rewrite E. cbn. f_equal.
  apply list_fmap_ext. intros _ k _.
  unfold array_slice, block. cbn. rewrite slice_window by lia.
  do 3 f_equal. nia.
Qed.

Lemma derive_leads_read_only (leads0 : list EcgLead) (l0 l1 l2 l3 l4 l5 : EcgLead) :
  leads0 !! 0%nat = Some l0 → leads0 !! 1%nat = Some l1 → leads0 !! 2%nat = Some l2 →
  leads0 !! 3%nat = Some l3 → leads0 !! 4%nat = Some l4 → leads0 !! 5%nat = Some l5 →
  writeable (lead_samples l2) = false →
  samples l0 ≠ [] → samples l1 ≠ [] → samples l2 ≠ [] →
  derive_leads leads0 = Err ValueError.
Proof.
  intros H0 H1 H2 H3 H4 H5 Hro N0 N1 N2.
  unfold derive_leads, lead_at. rewrite H0, H1, H2, H3, H4, H5. cbn.
  unfold samples in *.
  destruct (lead_samples l0) as [w0 [|x0 i0]]; [done|].
  destruct (lead_samples l1) as [w1 [|x1 i1]]; [done|].
  destruct (lead_samples l2) as [w2 [|x2 i2]]; [done|].
  cbn in Hro. subst w2. reflexivity.
Qed.

(** X20. No uncompressed document with samples gets through the
    corrections: with a supported version, six labels or more, a positive
    sample count and a buffer that reaches into the third lead, the leads
    are decoded as read-only arrays and [read_file] raises [ValueError] at
    the first correction of lead III. *)
Theorem uncompressed_samples_rejected (xdom root signal_details parsed_waveforms : node)
    (t v : string) (f d count : Z) (data : list Byte.byte) (vals : list Z)
    (labels : list string) (include_repbeats : bool) :
  get_node xdom "restingecgdata" = Ok root →
  assert_version root = Ok (t, v) →
  waveform_elements root signal_details parsed_waveforms →
  payload_decoded signal_details parsed_waveforms f d count data →
  declared_compression parsed_waveforms = "Uncompressed" →
  int16_values data = Some vals →
  get_or_create_labels signal_details parsed_waveforms = Ok labels →
  (6 ≤ length labels)%nat →
  0 < count →
  2 * count < Z.of_nat (length vals) →
  read_file xdom include_repbeats = Err ValueError.
Proof.
  intros Hroot Hver Helts Hpre Hu Hv Hlabels Hsix Hcount Hbuf.
  assert (Hgeo : geometry_read signal_details parsed_waveforms f d count).
  { destruct Hpre as (? & ? & ? & _). by repeat split. }
  pose proof (assert_leads_after_labels _ _ _ _ _ _ _ Helts Hgeo Hlabels) as Hleads.
  rewrite (get_waveform_data_dispatch _ _ _ _ _ _ _ Hpre), Hu in Hleads.
  cbn - [build_leads split_leads] in Hleads.
  rewrite (split_leads_arrays data vals _ _ Hv Hcount), bind_of_Ok in Hleads.
  set (wd := (λ k, mk_ndarray false (block vals (Z.to_nat count) k)) <$> seq 0 (length labels))
    in Hleads.
  assert (Hwd : length wd = length labels) by (unfold wd; by rewrite length_fmap, length_seq).
  destruct (build_leads_enough f d wd labels 0 ltac:(lia)) as (built & Hbuilt & Hn & _).
  rewrite Hbuilt, bind_of_Ok in Hleads.
  destruct (build_leads_pairs _ _ _ _ _ _ Hbuilt) as [_ Hsamples].
  assert (Hget : ∀ k, (k < 6)%nat → ∃ l, built !! k = Some l ∧
            lead_samples l = mk_ndarray false (block vals (Z.to_nat count) k)).
  { intros k Hk. destruct (lookup_lt_is_Some_2 built k ltac:(lia)) as [l Hl].
    exists l. split; [done|].
    pose proof (Hsamples k l Hl) as E. cbn in E. unfold wd in E.
    rewrite list_lookup_fmap, lookup_seq_lt in E by lia. cbn in E. by injection E as <-. }
  assert (Hne : ∀ k, (k ≤ 2)%nat → block vals (Z.to_nat count) k ≠ []).
  { intros k Hk E. apply (f_equal length) in E. unfold block in E.
    rewrite length_take, length_drop in E. cbn in E. nia. }
  destruct (Hget 0%nat ltac:(lia)) as (l0 & H0 & E0).
  destruct (Hget 1%nat ltac:(lia)) as (l1 & H1 & E1).
  destruct (Hget 2%nat ltac:(lia)) as (l2 & H2 & E2).
  destruct (Hget 3%nat ltac:(lia)) as (l3 & H3 & _).
  destruct (Hget 4%nat ltac:(lia)) as (l4 & H4 & _).
  destruct (Hget 5%nat ltac:(lia)) as (l5 & H5 & _).
  rewrite (read_file_after_leads _ _ _ _ _ _ _ Hroot Hver Hleads).
  rewrite (derive_leads_read_only built l0 l1 l2 l3 l4 l5 H0 H1 H2 H3 H4 H5); [done | ..].
  - by rewrite E2.
  - unfold samples. rewrite E0. cbn [items]. apply Hne. lia.
  - unfold samples. rewrite E1. cbn [items]. apply Hne. lia.
  - unfold samples. rewrite E2. cbn [items]. apply Hne. lia.
Qed.

End UncompressedPayload.

Lemma uncompressed_samples_rejected_witness :
  ∃ signal_details parsed_waveforms data vals labels,
    get_node Cases.six_uncompressed "restingecgdata"
      = Ok (Examples.root_of Cases.six_uncompressed) ∧
    assert_version (Examples.root_of Cases.six_uncompressed) = Ok ("SierraECG", "1.04") ∧
    waveform_elements (Examples.root_of Cases.six_uncompressed) signal_details parsed_waveforms ∧
    payload_decoded signal_details parsed_waveforms 500 4 2 data ∧
    declared_compression parsed_waveforms = "Uncompressed" ∧
    int16_values data = Some vals ∧
    get_or_create_labels signal_details parsed_waveforms = Ok labels ∧
    (6 ≤ length labels)%nat ∧
    0 < 2 ∧
    2 * 2 < Z.of_nat (length vals) ∧
    read_file Cases.six_uncompressed true = Err ValueError.
Proof.
  exists (Examples.signal "500" "6" "STD-12"),
         (Examples.waveforms [("durationperchannel", "4"); ("dataencoding", "Base64")]
                             "CgAUAB4AKAAyADwARgBQAFoAZABuAHgA"),
         (default [] (ExampleHost.decode "CgAUAB4AKAAyADwARgBQAFoAZABuAHgA")),
         [10; 20; 30; 40; 50; 60; 70; 80; 90; 100; 110; 120],
         ["I"; "II"; "III"; "aVR"; "aVL"; "aVF"].
  assert (Helts : waveform_elements (Examples.root_of Cases.six_uncompressed)
                    (Examples.signal "500" "6" "STD-12")
                    (Examples.waveforms [("durationperchannel", "4"); ("dataencoding", "Base64")]
                                        "CgAUAB4AKAAyADwARgBQAFoAZABuAHgA"))
    by (eexists; repeat split; reflexivity).
  assert (Hpre : payload_decoded (Examples.signal "500" "6" "STD-12")
                   (Examples.waveforms [("durationperchannel", "4"); ("dataencoding", "Base64")]
                                       "CgAUAB4AKAAyADwARgBQAFoAZABuAHgA")
                   500 4 2 (default [] (ExampleHost.decode "CgAUAB4AKAAyADwARgBQAFoAZABuAHgA"))).
  { split; [eexists; split; reflexivity|].
    split; [eexists; split; reflexivity|].
    repeat split; reflexivity. }
  assert (Hsix : (6 ≤ length ["I"; "II"; "III"; "aVR"; "aVL"; "aVF"])%nat) by (cbn; lia).
  split; [reflexivity|]. split; [reflexivity|]. split; [exact Helts|]. split; [exact Hpre|].
  split; [reflexivity|]. split; [reflexivity|]. split; [reflexivity|]. split; [exact Hsix|].
  split; [reflexivity|]. split; [reflexivity|].
  exact (uncompressed_samples_rejected Cases.six_uncompressed
           (Examples.root_of Cases.six_uncompressed) _ _ "SierraECG" "1.04" 500 4 2 _
           [10; 20; 30; 40; 50; 60; 70; 80; 90; 100; 110; 120]
           ["I"; "II"; "III"; "aVR"; "aVL"; "aVF"] true
           eq_refl eq_refl Helts Hpre eq_refl eq_refl eq_refl Hsix eq_refl eq_refl).
Defined.
